(** * financial_analyzer.py: the grounded-query client [fetch_gemini_response]

    A shallow embedding of the retry loop, the HTTP status handling and the
    response extraction of [fetch_gemini_response], followed by the properties
    the specification states about them.

    Conventions of the embedding.
    - A value produced by [json.loads] is a [json] term; a Python [dict] is an
      association list read by its first matching key.
    - A Python expression that may raise evaluates to a [py_result]: [Ok v] or
      [Raise e].  [HTTPError] is kept apart from the other instances of
      Python's [Exception] because the function has a handler of its own for
      it; [BaseException] stands for what neither handler catches
      ([KeyboardInterrupt], [SystemExit]).
    - The world outside the function (the remote endpoint, [urlopen],
      [response.read], [json.loads]) is an oracle [net] that gives, for each
      attempt index, what the attempt observes.
    - [time.sleep] and [st.error] do not raise; they are recorded, in order,
      in the trace of the run together with every call of [urlopen]. *)

From Stdlib Require Import ZArith List String Ascii Bool Lia Floats.
From Stdlib Require Import DecimalString.
Import ListNotations.
Open Scope string_scope.
Open Scope Z_scope.

(** ** Python values and exceptions *)

Module Py.

#[local] Set Warnings "-register-all".

(** What [json.loads] builds: [None], [bool], [int], [float], [str], [list]
    and [dict] (keys of a JSON object are always strings). *)
Inductive json : Type :=
| JNull
| JBool (b : bool)
| JInt (n : Z)
| JFloat (x : float)
| JStr (s : string)
| JList (items : list json)
| JDict (fields : list (string * json)).

(** The exceptions an attempt can end with.  [HTTPError] carries [code] and
    [reason]; any other exception carries its class name and [str(e)].
    [Exception] is an instance of Python's [Exception] other than
    [HTTPError]; [BaseException] is one outside [Exception]. *)
Inductive exn : Type :=
| HTTPError (code : Z) (reason : string)
| Exception (cls : string) (msg : string)
| BaseException (cls : string) (msg : string).

Inductive py_result (A : Type) : Type :=
| Ok (a : A)
| Raise (e : exn).
Arguments Ok {A} a.
Arguments Raise {A} e.

Definition bind {A B : Type} (r : py_result A) (k : A -> py_result B) : py_result B :=
  match r with
  | Ok a => k a
  | Raise e => Raise e
  end.

Notation "x <- r ;; k" := (bind r (fun x => k))
  (at level 61, r at next level, right associativity).

(** [type(v).__name__] *)
Definition type_name (v : json) : string :=
  match v with
  | JNull => "NoneType"
  | JBool _ => "bool"
  | JInt _ => "int"
  | JFloat _ => "float"
  | JStr _ => "str"
  | JList _ => "list"
  | JDict _ => "dict"
  end.

(** [bool(v)]: [None], [False], zero, the empty string, list and dict are
    false; everything else is true. *)
Definition truthy (v : json) : bool :=
  match v with
  | JNull => false
  | JBool b => b
  | JInt n => negb (n =? 0)
  | JFloat x => negb (PrimFloat.eqb x 0%float)
  | JStr s => negb (String.eqb s "")
  | JList items => match items with [] => false | _ :: _ => true end
  | JDict fields => match fields with [] => false | _ :: _ => true end
  end.

Fixpoint lookup (key : string) (fields : list (string * json)) : option json :=
  match fields with
  | [] => None
  | (k, v) :: rest => if String.eqb k key then Some v else lookup key rest
  end.

(** [v.get(key, default)]; only a [dict] has the method. *)
Definition get (v : json) (key : string) (default : json) : py_result json :=
  match v with
  | JDict fields =>
      match lookup key fields with
      | Some x => Ok x
      | None => Ok default
      end
  | _ => Raise (Exception "AttributeError"
                  ("'" ++ type_name v ++ "' object has no attribute 'get'"))
  end.

(** [v[0]] *)
Definition index0 (v : json) : py_result json :=
  match v with
  | JList [] => Raise (Exception "IndexError" "list index out of range")
  | JList (x :: _) => Ok x
  | JStr EmptyString => Raise (Exception "IndexError" "string index out of range")
  | JStr (String c _) => Ok (JStr (String c EmptyString))
  | JDict _ => Raise (Exception "KeyError" "0")
  | _ => Raise (Exception "TypeError"
                  ("'" ++ type_name v ++ "' object is not subscriptable"))
  end.

(** [v[key]] for a string key. *)
Definition getitem (v : json) (key : string) : py_result json :=
  match v with
  | JDict fields =>
      match lookup key fields with
      | Some x => Ok x
      | None => Raise (Exception "KeyError" ("'" ++ key ++ "'"))
      end
  | JList _ => Raise (Exception "TypeError"
                        "list indices must be integers or slices, not str")
  | JStr _ => Raise (Exception "TypeError"
                       "string indices must be integers, not 'str'")
  | _ => Raise (Exception "TypeError"
                  ("'" ++ type_name v ++ "' object is not subscriptable"))
  end.

Fixpoint chars (s : string) : list json :=
  match s with
  | EmptyString => []
  | String c rest => JStr (String c EmptyString) :: chars rest
  end.

(** The items a [for] clause draws from [v]: the elements of a list, the
    characters of a string, the keys of a dict. *)
Definition iter (v : json) : py_result (list json) :=
  match v with
  | JList items => Ok items
  | JStr s => Ok (chars s)
  | JDict fields => Ok (map (fun kv => JStr (fst kv)) fields)
  | _ => Raise (Exception "TypeError"
                  ("'" ++ type_name v ++ "' object is not iterable"))
  end.

(** [str(n)] for an [int]. *)
Definition str_int (n : Z) : string := NilZero.string_of_int (Z.to_int n).

(** [str(e)] *)
Definition str_exn (e : exn) : string :=
  match e with
  | HTTPError code reason => "HTTP Error " ++ str_int code ++ ": " ++ reason
  | Exception _ msg => msg
  | BaseException _ msg => msg
  end.

End Py.

Import Py.

(** ** The client *)

Definition API_KEY : string := "".
Definition API_URL_BASE : string :=
  "https://generativelanguage.googleapis.com/v1beta/models/gemini-2.5-flash-preview-09-2025:generateContent".

(** The argument of [Request(...)]; [data] is the payload before
    [json.dumps(...).encode('utf-8')]. *)
Record Request : Type := {
  url : string;
  data : json;
  headers : list (string * string);
  method : string
}.

(** One entry of [sources]: the dict with the keys ['title'] and ['uri']. *)
Record source : Type := { title : json; uri : json }.

(** What one attempt observes: either [urlopen] raises, or it gives a response
    with a [status], whose [body] is what [json.loads(response.read().decode())]
    evaluates to (a value, or the exception reading and decoding raise). *)
Inductive outcome : Type :=
| Raised (e : exn)
| Responded (status : Z) (body : py_result json).

Inductive event : Type :=
| Urlopen (req : Request) (timeout : Z)
| Sleep (delay : Z)
| StError (msg : string).

(** The four [return] statements of the function, in source order. *)
Inductive exit_point : Type :=
| ReturnExtracted
| ReturnHTTPError
| ReturnUnexpected
| ReturnAfterLoop.

(** How a call ends: at one of its [return] statements with the pair
    [(text, sources)], or with an exception no handler caught. *)
Inductive completion : Type :=
| Return (at_exit : exit_point) (v : json * list source)
| Propagate (e : exn).

Record run : Type := {
  trace : list event;
  finish : completion
}.

(** What one pass through the loop body does: it goes on to the next attempt,
    or it ends the call. *)
Inductive step : Type :=
| Continue (evs : list event)
| Finish (evs : list event) (c : completion).

Definition prepend (evs : list event) (r : run) : run :=
  {| trace := evs ++ trace r; finish := finish r |}.

(** The pair a call returns, when it returns. *)
Definition value (r : run) : option (json * list source) :=
  match finish r with
  | Return _ v => Some v
  | Propagate _ => None
  end.

(** [range(n)] *)
Definition range (n : Z) : list Z := map Z.of_nat (seq 0 (Z.to_nat n)).

(** [code in codes] *)
Definition mem (code : Z) (codes : list Z) : bool := existsb (Z.eqb code) codes.

(** [attr.get('web', {}).get(key)] *)
Definition web_field (attr : json) (key : string) : py_result json :=
  web <- get attr "web" (JDict []) ;;
  get web key JNull.

(** The list comprehension that builds [sources]: the condition reads ['uri']
    and, when that is true, ['title']; a kept entry reads ['title'] and
    ['uri'] again. *)
Fixpoint comprehension (attrs : list json) : py_result (list source) :=
  match attrs with
  | [] => Ok []
  | attr :: rest =>
      u <- web_field attr "uri" ;;
      keep <- (if truthy u
               then t <- web_field attr "title" ;; Ok (truthy t)
               else Ok false) ;;
      if keep : bool
      then t <- web_field attr "title" ;;
           u' <- web_field attr "uri" ;;
           tail <- comprehension rest ;;
           Ok ({| title := t; uri := u' |} :: tail)
      else comprehension rest
  end.

(** Lines 54-64: [sources] from the candidate. *)
Definition extract_sources (candidate : json) : py_result (list source) :=
  grounding_metadata <- get candidate "groundingMetadata" JNull ;;
  if truthy grounding_metadata
  then attributions <- get grounding_metadata "groundingAttributions" JNull ;;
       if truthy attributions
       then attrs <- getitem grounding_metadata "groundingAttributions" ;;
            items <- iter attrs ;;
            comprehension items
       else Ok []
  else Ok [].

(** Line 51: [result.get('candidates', [{}])[0]] *)
Definition first_candidate (result : json) : py_result json :=
  candidates <- get result "candidates" (JList [JDict []]) ;;
  index0 candidates.

(** Line 52 *)
Definition extract_text (candidate : json) : py_result json :=
  content <- get candidate "content" (JDict []) ;;
  parts <- get content "parts" (JList [JDict []]) ;;
  part <- index0 parts ;;
  get part "text" (JStr "No analysis generated.").

(** Lines 51-66: what the body of the [with] block does with the decoded
    response. *)
Definition extract (result : json) : py_result (json * list source) :=
  candidate <- first_candidate result ;;
  text <- extract_text candidate ;;
  sources <- extract_sources candidate ;;
  Ok (text, sources).

Section Client.

Variable user_query : string.
Variable system_prompt : string.
Variable net : Z -> outcome.

Definition payload : json :=
  JDict [ ("contents", JList [JDict [("parts", JList [JDict [("text", JStr user_query)]])]]);
          ("tools", JList [JDict [("google_search", JDict [])]]);
          ("systemInstruction", JDict [("parts", JList [JDict [("text", JStr system_prompt)]])]) ].

Definition full_api_url : string := API_URL_BASE ++ "?key=" ++ API_KEY.

Definition req : Request :=
  {| url := full_api_url;
     data := payload;
     headers := [("Content-Type", "application/json"); ("Accept", "application/json")];
     method := "POST" |}.

(** The body of the [try] block, lines 35-66, given what the attempt
    observes. *)
Definition attempt_body (o : outcome) : py_result (json * list source) :=
  match o with
  | Raised e => Raise e
  | Responded status body =>
      if negb (status =? 200)
      then Raise (HTTPError status ("HTTP Error: " ++ str_int status))
      else result <- body ;; extract result
  end.

(** The loop body, lines 34-78, at index [attempt]. *)
Definition loop_body (max_retries attempt : Z) : step :=
  match attempt_body (net attempt) with
  | Ok (text, sources) =>
      Finish [Urlopen req 10] (Return ReturnExtracted (text, sources))
  | Raise (HTTPError code reason) =>
      if (attempt <? max_retries - 1) && mem code [429; 500; 503]
      then Continue [Urlopen req 10; Sleep (2 ^ attempt)]
      else Finish [Urlopen req 10;
                   StError ("Failed to fetch analysis after multiple retries. API Error: " ++ reason)]
             (Return ReturnHTTPError (JStr "Error fetching analysis.", []))
  | Raise (Exception _ _ as e) =>
      Finish [Urlopen req 10;
              StError ("An unexpected error occurred: " ++ str_exn e)]
        (Return ReturnUnexpected (JStr "Error fetching analysis.", []))
  | Raise (BaseException _ _ as e) =>
      Finish [Urlopen req 10] (Propagate e)
  end.

(** The [for] loop of lines 33-78 over the attempt indices still to run,
    followed by line 80. *)
Fixpoint for_attempts (max_retries : Z) (attempts : list Z) : run :=
  match attempts with
  | [] =>
      {| trace := [];
         finish := Return ReturnAfterLoop
                     (JStr "Max retries reached. Could not complete the request.", []) |}
  | attempt :: rest =>
      match loop_body max_retries attempt with
      | Continue evs => prepend evs (for_attempts max_retries rest)
      | Finish evs c => {| trace := evs; finish := c |}
      end
  end.

Definition fetch_gemini_response (max_retries : Z) : run :=
  for_attempts max_retries (range max_retries).

End Client.

(** The waits and the attempts of a run, read off its trace. *)
Definition sleeps (tr : list event) : list Z :=
  flat_map (fun ev => match ev with Sleep d => [d] | _ => [] end) tr.

Definition attempts_made (tr : list event) : nat :=
  List.length (filter (fun ev => match ev with Urlopen _ _ => true | _ => false end) tr).

(** ** Vocabulary of the specification *)

(** The HTTP status an attempt observes, whether [urlopen] raised it as an
    [HTTPError] or line 45 read it off the response. *)
Definition status_of (o : outcome) : option Z :=
  match o with
  | Responded status _ => Some status
  | Raised (HTTPError code _) => Some code
  | Raised _ => None
  end.

Definition observes_status (o : outcome) (s : Z) : Prop := status_of o = Some s.

(** The attempt fails with one of the statuses that are retried. *)
Definition retryable (o : outcome) : bool :=
  match status_of o with
  | Some code => mem code [429; 500; 503]
  | None => false
  end.

(** Attempt [k] takes place: it is within the bound and every attempt before
    it failed with a retryable status. *)
Definition retried (net : Z -> outcome) (max_retries k : Z) : Prop :=
  0 <= k < max_retries /\ forall i, 0 <= i < k -> retryable (net i) = true.

(** Whatever the attempt raises is an instance of [Exception]. *)
Definition within_Exception (o : outcome) : Prop :=
  match o with
  | Raised (BaseException _ _) => False
  | Responded _ (Raise (BaseException _ _)) => False
  | _ => True
  end.

(** The events of [k] attempts that were each followed by a backoff wait. *)
Definition backoff (rq : Request) (k : Z) : list event :=
  flat_map (fun i => [Urlopen rq 10; Sleep (2 ^ i)]) (range k).

(** The two sentinel pairs and the placeholder text. *)
Definition error_sentinel : json * list source :=
  (JStr "Error fetching analysis.", []).
Definition exhausted_sentinel : json * list source :=
  (JStr "Max retries reached. Could not complete the request.", []).
Definition placeholder : json := JStr "No analysis generated.".

(** The grounding attributions the remote service sent with a candidate, in
    its order; none when the metadata or the list is missing. *)
Definition attributions_of (candidate : json) : list json :=
  match candidate with
  | JDict c =>
      match lookup "groundingMetadata" c with
      | Some (JDict gm) =>
          match lookup "groundingAttributions" gm with
          | Some (JList attrs) => attrs
          | _ => []
          end
      | _ => []
      end
  | _ => []
  end.

(** The field [key] of the [web] entry of an attribution, if present. *)
Definition web_entry (attr : json) (key : string) : option json :=
  match attr with
  | JDict a =>
      match lookup "web" a with
      | Some (JDict w) => lookup key w
      | _ => None
      end
  | _ => None
  end.

(** Present and non-empty, read as Python reads it: the field is there and
    its value is true. *)
Definition present_nonempty (attr : json) (key : string) : bool :=
  match web_entry attr key with
  | Some v => truthy v
  | None => false
  end.

Definition cited (attr : json) : bool :=
  present_nonempty attr "title" && present_nonempty attr "uri".

Definition or_None (o : option json) : json :=
  match o with Some v => v | None => JNull end.

Definition citation_of (attr : json) : source :=
  {| title := or_None (web_entry attr "title");
     uri := or_None (web_entry attr "uri") |}.

(** A field that, when present, holds text. *)
Definition text_or_absent (o : option json) : Prop :=
  match o with
  | None => True
  | Some (JStr _) => True
  | Some _ => False
  end.

(** Present and non-empty as the data model has it, for a text field. *)
Definition nonempty_text (o : option json) : bool :=
  match o with
  | Some (JStr s) => negb (String.eqb s "")
  | _ => false
  end.

(** An attribution of the expected shape: an object whose [web] entry, when
    present, is an object with text under [title] and [uri]. *)
Definition well_formed_attribution (attr : json) : Prop :=
  match attr with
  | JDict a =>
      match lookup "web" a with
      | None => True
      | Some (JDict w) =>
          text_or_absent (lookup "title" w) /\ text_or_absent (lookup "uri" w)
      | Some _ => False
      end
  | _ => False
  end.

(** Grounding metadata of the expected shape, when present. *)
Definition well_formed_grounding (c : list (string * json)) : Prop :=
  match lookup "groundingMetadata" c with
  | None => True
  | Some (JDict gm) =>
      match lookup "groundingAttributions" gm with
      | None => True
      | Some (JList attrs) => Forall well_formed_attribution attrs
      | Some _ => False
      end
  | Some _ => False
  end.

(** A response body of the expected shape whose first candidate's first part
    carries the text [answer]. *)
Definition well_formed_response (body : json) (answer : string) : Prop :=
  exists fields c more_candidates content part more_parts,
    body = JDict fields /\
    lookup "candidates" fields = Some (JList (JDict c :: more_candidates)) /\
    lookup "content" c = Some (JDict content) /\
    lookup "parts" content = Some (JList (JDict part :: more_parts)) /\
    lookup "text" part = Some (JStr answer) /\
    well_formed_grounding c.

(** A response body that lacks ['candidates'], or whose first candidate lacks
    ['content'], or whose content lacks ['parts']; the second argument is the
    candidate the extraction works on. *)
Inductive lacks_answer : json -> json -> Prop :=
| NoCandidates fields :
    lookup "candidates" fields = None ->
    lacks_answer (JDict fields) (JDict [])
| NoContent fields c more :
    lookup "candidates" fields = Some (JList (JDict c :: more)) ->
    lookup "content" c = None ->
    lacks_answer (JDict fields) (JDict c)
| NoParts fields c more content :
    lookup "candidates" fields = Some (JList (JDict c :: more)) ->
    lookup "content" c = Some (JDict content) ->
    lookup "parts" content = None ->
    lacks_answer (JDict fields) (JDict c).

(** A response body whose ['candidates'] is an empty list, or whose first
    candidate's ['content']['parts'] is an empty list. *)
Inductive empty_list_in : json -> Prop :=
| EmptyCandidates fields :
    lookup "candidates" fields = Some (JList []) ->
    empty_list_in (JDict fields)
| EmptyParts fields c more content :
    lookup "candidates" fields = Some (JList (JDict c :: more)) ->
    lookup "content" c = Some (JDict content) ->
    lookup "parts" content = Some (JList []) ->
    empty_list_in (JDict fields).

(** A citation whose title and URI are both non-empty text. *)
Definition nonempty_title_and_uri (s : source) : Prop :=
  exists t u, title s = JStr t /\ uri s = JStr u /\ t <> "" /\ u <> "".

(** An evaluation that, when it raises, raises an instance of [Exception]
    other than [HTTPError]. *)
Definition raises_Exception {A : Type} (r : py_result A) : Prop :=
  match r with
  | Ok _ => True
  | Raise (Exception _ _) => True
  | Raise _ => False
  end.

(** ** Concrete responses *)

(** Status 429 on every attempt. *)
Definition always_429 : Z -> outcome :=
  fun _ => Raised (HTTPError 429 "Too Many Requests").

(** The same response on every attempt. *)
Definition always (status : Z) (body : json) : Z -> outcome :=
  fun _ => Responded status (Ok body).

(** Status 429 on the attempts 0 to 3, then status 200 with [body]. *)
Definition recovers_at_4 (body : json) : Z -> outcome :=
  fun attempt =>
    if attempt <? 4 then Raised (HTTPError 429 "Too Many Requests")
    else Responded 200 (Ok body).

Definition attribution (fields : list (string * json)) : json :=
  JDict [("web", JDict fields)].

(** The attributions of the citation-filtering example. *)
Definition example_attributions : list json :=
  [ attribution [("title", JStr "A"); ("uri", JStr "u1")];
    attribution [("title", JStr ""); ("uri", JStr "u2")];
    attribution [] ].

Definition grounding (attrs : list json) : string * json :=
  ("groundingMetadata", JDict [("groundingAttributions", JList attrs)]).

(** A response of the expected shape with the example attributions. *)
Definition example_body : json :=
  JDict [("candidates",
          JList [JDict [("content", JDict [("parts", JList [JDict [("text", JStr "Markets rose.")]])]);
                        grounding example_attributions]])].

(** A candidate with grounding metadata but without ['content']. *)
Definition candidate_without_content : json :=
  JDict [grounding example_attributions].

Definition body_without_content : json :=
  JDict [("candidates", JList [candidate_without_content])].

Definition body_with_no_candidates : json :=
  JDict [("candidates", JList [])].

(** A response of the expected shape but for one attribution that is a
    number. *)
Definition body_with_unreadable_attribution : json :=
  JDict [("candidates",
          JList [JDict [("content", JDict [("parts", JList [JDict [("text", JStr "Markets rose.")]])]);
                        grounding [attribution [("title", JStr "A"); ("uri", JStr "u1")];
                                   JInt 5]]])].

(** A response whose first part has no 'text'. *)
Definition body_without_text : json :=
  JDict [("candidates", JList [JDict [("content", JDict [("parts", JList [JDict []])])]])].

(** [urlopen] times out on every attempt. *)
Definition always_times_out : Z -> outcome :=
  fun _ => Raised (Exception "URLError" "<urlopen error timed out>").

(** ** Further vocabulary for runs *)

(** The sum of the waits of a run. *)
Definition total (delays : list Z) : Z := fold_right Z.add 0 delays.

(** The messages passed to [st.error], in order. *)
Definition notifications (tr : list event) : list string :=
  flat_map (fun ev => match ev with StError msg => [msg] | _ => [] end) tr.

(** The call ended at one of the two [return] statements of the handlers. *)
Definition failure_exit (c : completion) : bool :=
  match c with
  | Return ReturnHTTPError _ => true
  | Return ReturnUnexpected _ => true
  | _ => false
  end.

(** The attempt raises an [HTTPError] whose code is one of those retried. *)
Definition raises_retryable (o : outcome) : Prop :=
  exists code reason,
    attempt_body o = Raise (HTTPError code reason) /\
    mem code [429; 500; 503] = true.

(** The loop goes on after each of the passes [0] to [k - 1], with the wait of
    that pass, and pass [k] ends the call with the events [evs] and the
    completion [c]. *)
Definition ends_at (user_query system_prompt : string) (net : Z -> outcome)
    (max_retries k : Z) (evs : list event) (c : completion) : Prop :=
  0 <= k < max_retries /\
  (forall i, 0 <= i < k ->
     loop_body user_query system_prompt net max_retries i
       = Continue [Urlopen (req user_query system_prompt) 10; Sleep (2 ^ i)]) /\
  loop_body user_query system_prompt net max_retries k = Finish evs c.

(** An attribution the comprehension can read: an object whose ['web'], when
    present, is an object. *)
Definition attribution_readable (attr : json) : bool :=
  match attr with
  | JDict a =>
      match lookup "web" a with
      | None => true
      | Some (JDict _) => true
      | Some _ => false
      end
  | _ => false
  end.

(** ** The page: the block under the button, lines 99-130

    The inputs of the block are the text [st.text_input] returned and whether
    [st.button] returned true.  The calls of the widgets above and below the
    block (lines 84-97 and 132-144) take no part in it.  A character of a
    string is a code point below 256.  The Streamlit calls do not raise. *)

(** [c.isspace()] *)
Definition isspace (c : ascii) : bool :=
  let n := nat_of_ascii c in
  ((9 <=? n) && (n <=? 13) || (28 <=? n) && (n <=? 32) || (n =? 133) || (n =? 160))%nat.

(** [s.lstrip()], [s.rstrip()] and [s.strip()] *)
Fixpoint lstrip (s : string) : string :=
  match s with
  | EmptyString => EmptyString
  | String c rest => if isspace c then lstrip rest else s
  end.

Fixpoint rstrip (s : string) : string :=
  match s with
  | EmptyString => EmptyString
  | String c rest =>
      match rstrip rest with
      | EmptyString => if isspace c then EmptyString else String c EmptyString
      | kept => String c kept
      end
  end.

Definition strip (s : string) : string := rstrip (lstrip s).

(** A string made of whitespace only (the empty string is one). *)
Definition blank (s : string) : bool := forallb isspace (list_ascii_of_string s).

(** The newline character of the f-string of line 127. *)
Definition LF : string := String "010"%char EmptyString.

(** [enumerate(l)] *)
Definition enumerate {A : Type} (l : list A) : list (Z * A) :=
  combine (range (Z.of_nat (List.length l))) l.

Inductive ui_call : Type :=
| StWarning (body : string)
| SpinnerEnter (text : string)
| SpinnerExit
| Client (ev : event)
| StSubheader (body : string)
| StInfo (body : json)
| StMarkdown (body : string).

(** What running the block does: the calls it makes, in order (those made
    inside [fetch_gemini_response] under [Client]), and the exception it ends
    with, if any. *)
Record ui_run : Type := {
  calls : list ui_call;
  raised : option exn
}.

(** Lines 106-111 *)
Definition system_prompt_text : string :=
  "You are a world-class financial analyst and data scientist. " ++
  "Provide a concise, neutral, and single-paragraph summary of the key findings " ++
  "related to the user's query. Your summary must be based ONLY on the provided " ++
  "search results. If no relevant information is found, state that.".

Section Page.

(** Python's [str] on the values an f-string formats. *)
Variable str : json -> string.
Variable net : Z -> outcome.

(** Line 127: the text one pass of the loop appends. *)
Definition source_line (i : Z) (source : source) : string :=
  str_int (i + 1) ++ ". [" ++ str (title source) ++ "](" ++ str (uri source) ++ ")" ++ LF.

(** Lines 125-127 *)
Definition source_markdown (sources : list source) : string :=
  fold_left (fun source_markdown i_source =>
               source_markdown ++ source_line (fst i_source) (snd i_source))
            (enumerate sources) "".

(** Lines 119-130, after the call of line 117 returned. *)
Definition show (topic : string) (analysis : json) (sources : list source) : list ui_call :=
  ([StSubheader ("Analysis for: " ++ topic); StInfo analysis] ++
   match sources with
   | [] => [StMarkdown "_Note: No direct web sources were cited for this analysis._"]
   | _ :: _ => [StSubheader "Source Citations"; StMarkdown (source_markdown sources)]
   end)%list.

(** Lines 99-130 *)
Definition analysis_block (topic : string) (clicked : bool) : ui_run :=
  if clicked
  then
    if negb (truthy (JStr (strip topic)))
    then {| calls := [StWarning "Please enter a topic to analyze."]; raised := None |}
    else
      let system_prompt := system_prompt_text in
      let user_query := "Find the latest news and key findings for: " ++ topic in
      let r := fetch_gemini_response user_query system_prompt net 5 in
      match finish r with
      | Return _ (analysis, sources) =>
          {| calls := (SpinnerEnter "Contacting market analysts (Gemini)..." ::
                       map Client (trace r) ++ show topic analysis sources ++ [SpinnerExit])%list;
             raised := None |}
      | Propagate e =>
          {| calls := (SpinnerEnter "Contacting market analysts (Gemini)..." ::
                       map Client (trace r) ++ [SpinnerExit])%list;
             raised := Some e |}
      end
  else {| calls := []; raised := None |}.

End Page.

(** The requests and the waits among the calls of the block. *)
Definition client_events (cs : list ui_call) : list event :=
  flat_map (fun c => match c with Client ev => [ev] | _ => [] end) cs.

(** [str] on text, for the examples. *)
Definition str_text (v : json) : string :=
  match v with
  | JStr s => s
  | JInt n => str_int n
  | JNull => "None"
  | JBool true => "True"
  | JBool false => "False"
  | _ => ""
  end.

(** ** The retry loop *)

#[local] Open Scope list_scope.

Section Loop.

Variable user_query : string.
Variable system_prompt : string.
Variable net : Z -> outcome.

Let rq := req user_query system_prompt.
Let body_at := loop_body user_query system_prompt net.
Let loop := for_attempts user_query system_prompt net.
Let fetch := fetch_gemini_response user_query system_prompt net.

Lemma mem_retryable_not_200 (code : Z) :
  mem code [429; 500; 503] = true -> (code =? 200) = false.
Proof.
  unfold mem; simpl; intros H.
  destruct (Z.eqb_spec code 200) as [-> | _]; [discriminate H | reflexivity].
Qed.

Lemma attempt_body_retryable (o : outcome) :
  retryable o = true ->
  exists code reason,
    attempt_body o = Raise (HTTPError code reason) /\
    mem code [429; 500; 503] = true.
Proof.
  unfold retryable, status_of.
  destruct o as [[code reason | cls msg | cls msg] | status body]; try discriminate.
  - intros H; exists code, reason; split; [reflexivity | exact H].
  - intros H; exists status, ("HTTP Error: " ++ str_int status)%string.
    split; [| exact H].
    unfold attempt_body; rewrite (mem_retryable_not_200 _ H); reflexivity.
Qed.

Lemma attempt_body_status (o : outcome) (s : Z) :
  observes_status o s -> s <> 200 ->
  exists reason, attempt_body o = Raise (HTTPError s reason).
Proof.
  unfold observes_status, status_of.
  destruct o as [[code reason | cls msg | cls msg] | status body];
    intros H Hs; inversion H; subst.
  - now exists reason.
  - exists ("HTTP Error: " ++ str_int s)%string; unfold attempt_body.
    destruct (Z.eqb_spec s 200); [contradiction | reflexivity].
Qed.

(** Before the last attempt, a retryable failure waits and goes on. *)
Lemma loop_body_retry (max_retries i : Z) :
  retryable (net i) = true -> i < max_retries - 1 ->
  body_at max_retries i = Continue [Urlopen rq 10; Sleep (2 ^ i)].
Proof.
  intros Hr Hi; subst body_at; unfold loop_body.
  destruct (attempt_body_retryable _ Hr) as (code & reason & -> & Hm).
  rewrite Hm; destruct (Z.ltb_spec i (max_retries - 1)); [reflexivity | lia].
Qed.

(** Any [HTTPError] on the last attempt ends the call at line 75. *)
Lemma loop_body_last (max_retries i code : Z) (reason : string) :
  attempt_body (net i) = Raise (HTTPError code reason) ->
  max_retries - 1 <= i ->
  body_at max_retries i =
    Finish [Urlopen rq 10;
            StError ("Failed to fetch analysis after multiple retries. API Error: " ++ reason)%string]
      (Return ReturnHTTPError error_sentinel).
Proof.
  intros Hb Hi; subst body_at; unfold loop_body; rewrite Hb.
  destruct (Z.ltb_spec i (max_retries - 1)); [lia | reflexivity].
Qed.

(** A status outside the retried ones ends the call at line 75. *)
Lemma loop_body_not_retried (max_retries i code : Z) (reason : string) :
  attempt_body (net i) = Raise (HTTPError code reason) ->
  mem code [429; 500; 503] = false ->
  body_at max_retries i =
    Finish [Urlopen rq 10;
            StError ("Failed to fetch analysis after multiple retries. API Error: " ++ reason)%string]
      (Return ReturnHTTPError error_sentinel).
Proof.
  intros Hb Hm; subst body_at; unfold loop_body; rewrite Hb, Hm.
  now rewrite andb_false_r.
Qed.

Lemma range_split (k n : nat) (a : nat) :
  map Z.of_nat (seq a (k + n)) =
  map Z.of_nat (seq a k) ++ map Z.of_nat (seq (a + k) n).
Proof. now rewrite seq_app, map_app. Qed.

(** [k] retryable failures in a row before the last index contribute their
    attempts and waits, and the loop carries on after them. *)
Lemma for_attempts_retries (max_retries : Z) (k : nat) :
  forall (a : nat) (rest : list Z),
    (forall i, Z.of_nat a <= i < Z.of_nat (a + k) -> retryable (net i) = true) ->
    Z.of_nat (a + k) <= max_retries - 1 ->
    loop max_retries (map Z.of_nat (seq a k) ++ rest) =
    prepend (flat_map (fun i => [Urlopen rq 10; Sleep (2 ^ i)]) (map Z.of_nat (seq a k)))
      (loop max_retries rest).
Proof.
  induction k as [| k IH]; intros a rest Hr Hb.
  - simpl; unfold prepend; simpl; now destruct (loop max_retries rest).
  - subst loop; simpl.
    fold (body_at max_retries (Z.of_nat a)).
    rewrite loop_body_retry by (try apply Hr; lia).
    rewrite IH.
    + unfold prepend; simpl; reflexivity.
    + intros i Hi; apply Hr; lia.
    + lia.
Qed.

Lemma range_at (max_retries k : Z) :
  0 <= k < max_retries ->
  range max_retries =
    range k ++ k :: map Z.of_nat (seq (S (Z.to_nat k)) (Z.to_nat max_retries - S (Z.to_nat k))).
Proof.
  intros Hk; unfold range.
  replace (Z.to_nat max_retries)
    with (Z.to_nat k + S (Z.to_nat max_retries - S (Z.to_nat k)))%nat by lia.
  rewrite range_split; simpl.
  replace (Z.to_nat k + S (Z.to_nat max_retries - S (Z.to_nat k)) - S (Z.to_nat k))%nat
    with (Z.to_nat max_retries - S (Z.to_nat k))%nat by lia.
  now rewrite Z2Nat.id by lia.
Qed.

(** When attempt [k] takes place and ends the call, the run is the [k]
    backed-off attempts followed by what attempt [k] does. *)
Lemma fetch_finishes_at (max_retries k : Z) (evs : list event) (c : completion) :
  retried net max_retries k ->
  body_at max_retries k = Finish evs c ->
  fetch max_retries = {| trace := backoff rq k ++ evs; finish := c |}.
Proof.
  intros [Hk Hr] Hf; subst fetch; unfold fetch_gemini_response.
  rewrite (range_at _ _ Hk); unfold range.
  fold loop; rewrite for_attempts_retries.
  - subst loop; simpl. fold (body_at max_retries k); rewrite Hf.
    reflexivity.
  - intros i Hi; apply Hr; lia.
  - lia.
Qed.

End Loop.

(** ** Reading a trace *)

Lemma sleeps_app (a b : list event) : sleeps (a ++ b) = sleeps a ++ sleeps b.
Proof. unfold sleeps; now rewrite flat_map_app. Qed.

Lemma attempts_made_app (a b : list event) :
  attempts_made (a ++ b) = (attempts_made a + attempts_made b)%nat.
Proof. unfold attempts_made; now rewrite filter_app, length_app. Qed.

Lemma sleeps_backoff (rq : Request) (k : Z) :
  sleeps (backoff rq k) = map (fun i => 2 ^ i) (range k).
Proof.
  unfold backoff; induction (range k) as [| i l IH]; [reflexivity |].
  simpl; unfold sleeps in *; simpl; now rewrite IH.
Qed.

Lemma attempts_made_backoff (rq : Request) (k : Z) :
  attempts_made (backoff rq k) = Z.to_nat k.
Proof.
  unfold backoff, range.
  transitivity (List.length (seq 0 (Z.to_nat k))); [| apply length_seq].
  induction (seq 0 (Z.to_nat k)) as [| i l IH]; [reflexivity |].
  simpl; unfold attempts_made in *; simpl; now rewrite IH.
Qed.

(** ** The extraction *)

Lemma web_field_Ok (attr : json) (key : string) (v : json) :
  web_field attr key = Ok v -> v = or_None (web_entry attr key).
Proof.
  unfold web_field, web_entry, get.
  destruct attr as [| | | | | |a]; simpl; try discriminate.
  destruct (lookup "web" a) as [[| | | | | |w] |]; simpl; try discriminate.
  - destruct (lookup key w); intros H; inversion H; reflexivity.
  - intros H; inversion H; reflexivity.
Qed.

Lemma truthy_or_None (attr : json) (key : string) :
  truthy (or_None (web_entry attr key)) = present_nonempty attr key.
Proof. unfold present_nonempty; now destruct (web_entry attr key). Qed.

(** The comprehension keeps, in order, the attributions that are [cited]. *)
Lemma comprehension_Ok (attrs : list json) :
  forall srcs, comprehension attrs = Ok srcs ->
               srcs = map citation_of (filter cited attrs).
Proof.
  induction attrs as [| attr rest IH]; intros srcs H; simpl in H.
  - now inversion H.
  - simpl; unfold cited.
    destruct (web_field attr "uri") as [u |] eqn:Hu; [| discriminate H].
    pose proof (web_field_Ok _ _ _ Hu) as ->.
    rewrite <- !truthy_or_None.
    simpl in H.
    destruct (truthy (or_None (web_entry attr "uri"))); simpl in H.
    + destruct (web_field attr "title") as [t |] eqn:Ht; [| discriminate H].
      pose proof (web_field_Ok _ _ _ Ht) as ->.
      simpl in H.
      destruct (truthy (or_None (web_entry attr "title"))); simpl in *.
      * destruct (comprehension rest) as [tail |]; [| discriminate H].
        simpl in H; inversion H; subst.
        now rewrite (IH tail eq_refl).
      * now apply IH.
    + rewrite andb_false_r; now apply IH.
Qed.

Lemma comprehension_chars_raises (c : ascii) (s : string) :
  forall srcs, comprehension (chars (String c s)) <> Ok srcs.
Proof. intros srcs; simpl; discriminate. Qed.

(** On success, [sources] is the cited part of the attributions received. *)
Lemma extract_sources_Ok (candidate : json) (srcs : list source) :
  extract_sources candidate = Ok srcs ->
  srcs = map citation_of (filter cited (attributions_of candidate)).
Proof.
  unfold extract_sources, attributions_of, get.
  destruct candidate as [| | | | | |c]; simpl; try discriminate.
  destruct (lookup "groundingMetadata" c) as [gm |]; simpl;
    [| intros H; now inversion H].
  destruct gm as [| b | n | x | s | l | g0];
    try (intros H; simpl in H;
         try match type of H with
             | context [if ?b then _ else _] => destruct b; simpl in H
             end;
         first [discriminate H | now inversion H]).
  destruct (truthy (JDict g0)) eqn:Htg.
  2:{ destruct g0; [| discriminate Htg]. intros H; now inversion H. }
  destruct (lookup "groundingAttributions" g0) as [ga |] eqn:Hga; cbn [bind];
    [| intros H; now inversion H].
  destruct (truthy ga) eqn:Ht.
  - unfold getitem; rewrite Hga; cbn [bind].
    destruct ga as [| b | n | x | s | l | d]; cbn [iter bind]; try discriminate.
    + destruct s as [| ch s']; [discriminate Ht |].
      intros H; now apply comprehension_chars_raises in H.
    + apply comprehension_Ok.
    + destruct d as [| [k v] d']; [discriminate Ht |]. simpl. discriminate.
  - intros H; inversion H.
    destruct ga as [| b | n | x | s | [| ? ?] | d]; try reflexivity.
    discriminate Ht.
Qed.

Lemma extract_sources_no_metadata (c : list (string * json)) :
  lookup "groundingMetadata" c = None -> extract_sources (JDict c) = Ok [].
Proof. intros H; unfold extract_sources, get; now rewrite H. Qed.

(** A body that lacks the answer yields the placeholder text, with the
    sources of the candidate the extraction works on. *)
Lemma extract_lacks_answer (body candidate : json) :
  lacks_answer body candidate ->
  extract body =
    (sources <- extract_sources candidate ;; Ok (placeholder, sources)).
Proof.
  intros H; destruct H as [fields Hc | fields c more Hc Hn | fields c more content Hc Hn Hp];
    unfold extract, first_candidate, extract_text, get; rewrite Hc; simpl.
  - reflexivity.
  - now rewrite Hn.
  - rewrite Hn; simpl; now rewrite Hp.
Qed.

(** An empty list where the first element is read raises [IndexError]. *)
Lemma extract_empty_list (body : json) :
  empty_list_in body ->
  extract body = Raise (Exception "IndexError" "list index out of range").
Proof.
  intros H; destruct H as [fields Hc | fields c more content Hc Hn Hp];
    unfold extract, first_candidate, extract_text, get; rewrite Hc; simpl.
  - reflexivity.
  - rewrite Hn; simpl; now rewrite Hp.
Qed.

(** ** Exceptions of the extraction *)

Lemma raises_Exception_bind {A B : Type} (r : py_result A) (k : A -> py_result B) :
  raises_Exception r -> (forall a, raises_Exception (k a)) ->
  raises_Exception (bind r k).
Proof. destruct r as [a | e]; simpl; auto. Qed.

Lemma get_raises_Exception (v : json) (key : string) (default : json) :
  raises_Exception (get v key default).
Proof.
  destruct v; simpl; auto.
  now destruct (lookup key fields).
Qed.

Lemma index0_raises_Exception (v : json) : raises_Exception (index0 v).
Proof. destruct v as [| | | | [| ? ?] | [| ? ?] |]; simpl; auto. Qed.

Lemma getitem_raises_Exception (v : json) (key : string) :
  raises_Exception (getitem v key).
Proof.
  destruct v; simpl; auto.
  now destruct (lookup key fields).
Qed.

Lemma iter_raises_Exception (v : json) : raises_Exception (iter v).
Proof. destruct v; simpl; auto. Qed.

Create HintDb py_raise.

#[local] Hint Resolve get_raises_Exception index0_raises_Exception
  getitem_raises_Exception iter_raises_Exception : py_raise.

Ltac raise_steps :=
  repeat first
    [ apply raises_Exception_bind; [| intros ?]
    | solve [auto with py_raise]
    | match goal with
      | |- raises_Exception (if ?b then _ else _) => destruct b
      end
    | exact I ].

Lemma web_field_raises_Exception (attr : json) (key : string) :
  raises_Exception (web_field attr key).
Proof. unfold web_field; raise_steps. Qed.

#[local] Hint Resolve web_field_raises_Exception : py_raise.

Lemma comprehension_raises_Exception (attrs : list json) :
  raises_Exception (comprehension attrs).
Proof.
  induction attrs as [| attr rest IH]; [exact I |].
  cbn [comprehension]; raise_steps; exact IH.
Qed.

#[local] Hint Resolve comprehension_raises_Exception : py_raise.

Lemma extract_raises_Exception (body : json) : raises_Exception (extract body).
Proof.
  unfold extract, first_candidate, extract_text, extract_sources; raise_steps.
Qed.

(** ** Responses of the expected shape *)

Lemma web_field_well_formed (attr : json) (key : string) :
  well_formed_attribution attr ->
  web_field attr key = Ok (or_None (web_entry attr key)).
Proof.
  unfold well_formed_attribution, web_field, web_entry, get.
  destruct attr as [| | | | | |a]; try contradiction.
  destruct (lookup "web" a) as [[| | | | | |w] |]; try contradiction; intros _; simpl.
  - now destruct (lookup key w).
  - reflexivity.
Qed.

Lemma comprehension_well_formed (attrs : list json) :
  Forall well_formed_attribution attrs ->
  comprehension attrs = Ok (map citation_of (filter cited attrs)).
Proof.
  induction 1 as [| attr rest Hwf _ IH]; [reflexivity |].
  cbn [comprehension filter]; unfold cited.
  rewrite !(web_field_well_formed _ _ Hwf); cbn [bind].
  rewrite <- !truthy_or_None.
  destruct (truthy (or_None (web_entry attr "uri"))); cbn [bind].
  - destruct (truthy (or_None (web_entry attr "title"))); cbn [bind andb].
    + now rewrite IH.
    + exact IH.
  - rewrite andb_false_r; exact IH.
Qed.

(** For text fields, being cited is having a non-empty title and URI. *)
Lemma cited_text (attr : json) :
  well_formed_attribution attr ->
  cited attr =
    nonempty_text (web_entry attr "title") && nonempty_text (web_entry attr "uri").
Proof.
  unfold well_formed_attribution, cited, present_nonempty, web_entry.
  destruct attr as [| | | | | |a]; try contradiction.
  destruct (lookup "web" a) as [[| | | | | |w] |]; try contradiction; [| reflexivity].
  intros [Ht Hu].
  destruct (lookup "title" w) as [[] |]; try contradiction;
    destruct (lookup "uri" w) as [[] |]; try contradiction; reflexivity.
Qed.

Lemma nonempty_text_inv (o : option json) :
  nonempty_text o = true -> exists s, o = Some (JStr s) /\ s <> "".
Proof.
  destruct o as [[| | | | s | |] |]; try discriminate.
  simpl; intros H; exists s; split; [reflexivity |].
  intros ->; discriminate H.
Qed.

Lemma citation_of_cited (attr : json) :
  well_formed_attribution attr -> cited attr = true ->
  nonempty_title_and_uri (citation_of attr).
Proof.
  intros Hwf Hc; rewrite (cited_text _ Hwf) in Hc.
  apply andb_true_iff in Hc as [Ht Hu].
  apply nonempty_text_inv in Ht as (t & Ht & Hne).
  apply nonempty_text_inv in Hu as (u & Hu & Hue).
  exists t, u; unfold citation_of; rewrite Ht, Hu; simpl; auto.
Qed.

Lemma citations_nonempty (attrs : list json) :
  Forall well_formed_attribution attrs ->
  Forall nonempty_title_and_uri (map citation_of (filter cited attrs)).
Proof.
  induction 1 as [| attr rest Hwf _ IH]; [constructor |].
  cbn [filter]; destruct (cited attr) eqn:Hc; [| exact IH].
  constructor; [now apply citation_of_cited | exact IH].
Qed.

Lemma extract_sources_well_formed (c : list (string * json)) :
  well_formed_grounding c ->
  exists srcs, extract_sources (JDict c) = Ok srcs /\
               Forall nonempty_title_and_uri srcs.
Proof.
  unfold well_formed_grounding, extract_sources, get.
  destruct (lookup "groundingMetadata" c) as [[| | | | | | gm] |];
    try contradiction; cbn [bind].
  2:{ intros _; exists []; split; [reflexivity | constructor]. }
  destruct (truthy (JDict gm)).
  2:{ intros _; exists []; split; [reflexivity | constructor]. }
  unfold getitem.
  destruct (lookup "groundingAttributions" gm) as [[| | | | | attrs |] |];
    try contradiction; cbn [bind].
  2:{ intros _; exists []; split; [reflexivity | constructor]. }
  intros Hwf.
  destruct (truthy (JList attrs)); cbn [bind iter].
  - rewrite (comprehension_well_formed _ Hwf).
    eexists; split; [reflexivity | now apply citations_nonempty].
  - exists []; split; [reflexivity | constructor].
Qed.

Lemma extract_well_formed (body : json) (answer : string) :
  well_formed_response body answer ->
  exists srcs, extract body = Ok (JStr answer, srcs) /\
               Forall nonempty_title_and_uri srcs.
Proof.
  intros (fields & c & more & content & part & parts & -> & Hc & Hn & Hp & Ht & Hg).
  destruct (extract_sources_well_formed _ Hg) as (srcs & Hs & Hall).
  exists srcs; split; [| exact Hall].
  unfold extract, first_candidate, extract_text, get.
  rewrite Hc; cbn [bind index0]; rewrite Hn; cbn [bind]; rewrite Hp; cbn [bind index0].
  rewrite Ht; cbn [bind]; now rewrite Hs.
Qed.

(** ** The claims *)

Section Claims.

Variable user_query : string.
Variable system_prompt : string.
Variable net : Z -> outcome.

Let rq := req user_query system_prompt.
Let body_at := loop_body user_query system_prompt net.
Let fetch := fetch_gemini_response user_query system_prompt net.

(** A status-200 response whose extraction succeeds ends the call at
    line 66. *)
Lemma loop_body_extracted (max_retries k : Z) (body : json) (v : json * list source) :
  net k = Responded 200 (Ok body) -> extract body = Ok v ->
  body_at max_retries k = Finish [Urlopen rq 10] (Return ReturnExtracted v).
Proof.
  intros Hn He; subst body_at; unfold loop_body, attempt_body.
  rewrite Hn; cbn [Z.eqb Pos.eqb negb bind]; rewrite He; now destruct v.
Qed.

(** A status-200 response whose extraction raises ends the call at
    line 78. *)
Lemma loop_body_unexpected (max_retries k : Z) (body : json) (e : exn) :
  net k = Responded 200 (Ok body) -> extract body = Raise e ->
  body_at max_retries k =
    Finish [Urlopen rq 10; StError ("An unexpected error occurred: " ++ str_exn e)%string]
      (Return ReturnUnexpected error_sentinel).
Proof.
  intros Hn He; subst body_at; unfold loop_body, attempt_body.
  rewrite Hn; cbn [Z.eqb Pos.eqb negb bind]; rewrite He.
  pose proof (extract_raises_Exception body) as Hr; rewrite He in Hr.
  destruct e; try contradiction; reflexivity.
Qed.

Lemma observes_429_retryable (o : outcome) :
  observes_status o 429 -> retryable o = true.
Proof. unfold observes_status, retryable; now intros ->. Qed.

Lemma attempt_body_within_Exception (o : outcome) :
  within_Exception o ->
  forall cls msg, attempt_body o <> Raise (BaseException cls msg).
Proof.
  intros Hw cls msg; unfold attempt_body.
  destruct o as [e | status body].
  - destruct e; try discriminate; contradiction.
  - destruct (negb (status =? 200)); [discriminate |].
    destruct body as [result | e]; cbn [bind].
    + pose proof (extract_raises_Exception result) as Hr.
      intros He; rewrite He in Hr; exact Hr.
    + destruct e; try discriminate; contradiction.
Qed.

(** No pass through the loop body ends at the [return] after the loop. *)
Lemma loop_body_not_after_loop (max_retries i : Z) (evs : list event) (v : json * list source) :
  body_at max_retries i <> Finish evs (Return ReturnAfterLoop v).
Proof.
  subst body_at; unfold loop_body.
  destruct (attempt_body (net i)) as [[text sources] | [code reason | cls msg | cls msg]];
    try discriminate.
  destruct ((i <? max_retries - 1) && mem code [429; 500; 503]); discriminate.
Qed.

(** The last pass through the loop body never goes on. *)
Lemma loop_body_last_finishes (max_retries : Z) (evs : list event) :
  body_at max_retries (max_retries - 1) <> Continue evs.
Proof.
  subst body_at; unfold loop_body.
  destruct (attempt_body (net (max_retries - 1)))
    as [[text sources] | [code reason | cls msg | cls msg]]; try discriminate.
  rewrite Z.ltb_irrefl; discriminate.
Qed.

(** The [return] after the loop is reached only when every pass went on. *)
Lemma after_loop_all_continue (max_retries : Z) (attempts : list Z) (v : json * list source) :
  finish (for_attempts user_query system_prompt net max_retries attempts)
    = Return ReturnAfterLoop v ->
  Forall (fun i => exists evs, body_at max_retries i = Continue evs) attempts.
Proof.
  induction attempts as [| i rest IH]; [constructor |].
  cbn [for_attempts]; fold (body_at max_retries i).
  destruct (body_at max_retries i) as [evs | evs c] eqn:Hb.
  - cbn [prepend finish]; intros H; constructor; [now exists evs | now apply IH].
  - cbn [finish]; intros ->; now apply loop_body_not_after_loop in Hb.
Qed.

Lemma for_attempts_returns (max_retries : Z) (attempts : list Z) :
  Forall (fun i => within_Exception (net i)) attempts ->
  exists x v,
    finish (for_attempts user_query system_prompt net max_retries attempts)
      = Return x v.
Proof.
  induction 1 as [| i rest Hw _ IH]; [now eexists; eexists |].
  cbn [for_attempts]; unfold loop_body.
  pose proof (attempt_body_within_Exception _ Hw) as Hb.
  destruct (attempt_body (net i)) as [[text sources] | [code reason | cls msg | cls msg]].
  - now eexists; eexists.
  - destruct ((i <? max_retries - 1) && mem code [429; 500; 503]).
    + exact IH.
    + now eexists; eexists.
  - now eexists; eexists.
  - now contradiction (Hb cls msg).
Qed.

Lemma in_range (n i : Z) : In i (range n) -> 0 <= i < n.
Proof.
  unfold range; rewrite in_map_iff; intros (j & <- & Hj).
  apply in_seq in Hj; lia.
Qed.

(** C1 (as amended): with [max_retries = 5], when every attempt fails with a
    retryable status, the call makes its five requests with the waits 1, 2, 4
    and 8 between them, in that order (request, wait 1, request, wait 2,
    request, wait 4, request, wait 8, request), shows the error, and the fifth
    attempt ends it with the pair ("Error fetching analysis.", []); there is
    no sixth attempt. *)
Theorem retries_exhausted_returns_error :
  (forall i, 0 <= i < 5 -> retryable (net i) = true) ->
  (exists reason,
     trace (fetch 5) =
       [Urlopen rq 10; Sleep 1; Urlopen rq 10; Sleep 2; Urlopen rq 10; Sleep 4;
        Urlopen rq 10; Sleep 8; Urlopen rq 10;
        StError ("Failed to fetch analysis after multiple retries. API Error: "
                 ++ reason)%string]) /\
  finish (fetch 5) = Return ReturnHTTPError error_sentinel /\
  sleeps (trace (fetch 5)) = [1; 2; 4; 8] /\
  attempts_made (trace (fetch 5)) = 5%nat.
Proof.
  intros Hr.
  destruct (attempt_body_retryable _ (Hr 4 ltac:(lia))) as (code & reason & Hb & _).
  pose proof (loop_body_last user_query system_prompt net 5 4 code reason Hb ltac:(lia)) as Hl.
  assert (Hk : retried net 5 4) by (split; [lia | intros i Hi; apply Hr; lia]).
  subst fetch.
  rewrite (fetch_finishes_at user_query system_prompt net 5 4 _ _ Hk Hl).
  cbn [trace finish]; split; [exists reason; reflexivity |].
  rewrite sleeps_app, attempts_made_app, sleeps_backoff, attempts_made_backoff.
  repeat split.
Qed.

(** C2: whatever the status, the body or the [Exception] each attempt ends
    with, the call ends at one of its [return] statements with a pair
    [(text, sources)]; nothing propagates to the caller. *)
Theorem never_propagates (max_retries : Z) :
  (forall i, 0 <= i < max_retries -> within_Exception (net i)) ->
  exists (x : exit_point) (text : json) (sources : list source),
    finish (fetch max_retries) = Return x (text, sources).
Proof.
  intros Hw; subst fetch; unfold fetch_gemini_response.
  destruct (for_attempts_returns max_retries (range max_retries))
    as (x & [text sources] & H).
  - apply Forall_forall; intros i Hi; apply Hw; now apply in_range.
  - now exists x, text, sources.
Qed.

(** C3: with [max_retries = 5], status 429 on the attempts 0 to 3 and a
    status-200 response on attempt 4, the call makes five attempts separated
    by exactly four waits of 1, 2, 4 and 8, in that order, and returns what
    it extracts from the response. *)
Theorem backoff_then_success (body : json) (v : json * list source) :
  (forall i, 0 <= i < 4 -> observes_status (net i) 429) ->
  net 4 = Responded 200 (Ok body) ->
  extract body = Ok v ->
  trace (fetch 5) =
    [Urlopen rq 10; Sleep 1; Urlopen rq 10; Sleep 2; Urlopen rq 10; Sleep 4;
     Urlopen rq 10; Sleep 8; Urlopen rq 10] /\
  sleeps (trace (fetch 5)) = [1; 2; 4; 8] /\
  finish (fetch 5) = Return ReturnExtracted v.
Proof.
  intros Hs Hn He.
  pose proof (loop_body_extracted 5 4 body v Hn He) as Hl.
  assert (Hk : retried net 5 4)
    by (split; [lia | intros i Hi; now apply observes_429_retryable, Hs]).
  subst fetch body_at.
  rewrite (fetch_finishes_at user_query system_prompt net 5 4 _ _ Hk Hl).
  repeat split.
Qed.

(** C6: when the first attempt observes a status that is not 2xx and not one
    of 429, 500, 503, the call ends there with the pair
    ("Error fetching analysis.", []): one attempt, no wait. *)
Theorem non_retryable_status_fails_at_once (max_retries s : Z) :
  1 <= max_retries ->
  observes_status (net 0) s ->
  ~ (200 <= s < 300) ->
  mem s [429; 500; 503] = false ->
  finish (fetch max_retries) = Return ReturnHTTPError error_sentinel /\
  sleeps (trace (fetch max_retries)) = [] /\
  attempts_made (trace (fetch max_retries)) = 1%nat.
Proof.
  intros Hm Hs H2 Hr.
  destruct (attempt_body_status _ _ Hs ltac:(lia)) as (reason & Hb).
  pose proof (loop_body_not_retried user_query system_prompt net max_retries 0 s reason Hb Hr) as Hl.
  assert (Hk : retried net max_retries 0) by (split; intros; lia).
  subst fetch.
  rewrite (fetch_finishes_at user_query system_prompt net max_retries 0 _ _ Hk Hl).
  repeat split.
Qed.

(** C9: for [max_retries >= 1] the last pass through the loop body never
    goes on to a further attempt, and the call never ends at the [return]
    that follows the loop. *)
Theorem post_loop_return_unreachable (max_retries : Z) :
  1 <= max_retries ->
  (forall evs, body_at max_retries (max_retries - 1) <> Continue evs) /\
  (forall v, finish (fetch max_retries) <> Return ReturnAfterLoop v).
Proof.
  intros Hm; split; [apply loop_body_last_finishes |].
  intros v H; subst fetch; unfold fetch_gemini_response in H.
  apply after_loop_all_continue in H.
  rewrite (range_at max_retries (max_retries - 1)) in H by lia.
  apply Forall_app in H as [_ H]; inversion H as [| ? ? [evs Hc] _]; subst.
  now apply loop_body_last_finishes in Hc.
Qed.

(** C10: for [max_retries <= 0] the call makes no attempt and no wait and
    returns the pair ("Max retries reached. Could not complete the
    request.", []). *)
Theorem no_attempt_without_retries (max_retries : Z) :
  max_retries <= 0 ->
  trace (fetch max_retries) = [] /\
  attempts_made (trace (fetch max_retries)) = 0%nat /\
  sleeps (trace (fetch max_retries)) = [] /\
  finish (fetch max_retries) = Return ReturnAfterLoop exhausted_sentinel.
Proof.
  intros Hm; subst fetch; unfold fetch_gemini_response, range.
  replace (Z.to_nat max_retries) with 0%nat by lia.
  repeat split.
Qed.

(** What the call does with a status-200 response received at attempt [k]:
    it returns what the extraction gives, or the error pair when the
    extraction raises. *)
Lemma fetch_extracted (max_retries k : Z) (body : json) (v : json * list source) :
  retried net max_retries k ->
  net k = Responded 200 (Ok body) ->
  extract body = Ok v ->
  fetch max_retries =
    {| trace := backoff rq k ++ [Urlopen rq 10];
       finish := Return ReturnExtracted v |}.
Proof.
  intros Hk Hn He; unfold fetch, rq.
  apply fetch_finishes_at; [exact Hk |].
  exact (loop_body_extracted max_retries k body v Hn He).
Qed.

Lemma fetch_unexpected (max_retries k : Z) (body : json) (e : exn) :
  retried net max_retries k ->
  net k = Responded 200 (Ok body) ->
  extract body = Raise e ->
  fetch max_retries =
    {| trace := backoff rq k ++
                [Urlopen rq 10; StError ("An unexpected error occurred: " ++ str_exn e)%string];
       finish := Return ReturnUnexpected error_sentinel |}.
Proof.
  intros Hk Hn He; unfold fetch, rq.
  apply fetch_finishes_at; [exact Hk |].
  exact (loop_body_unexpected max_retries k body e Hn He).
Qed.

(** A call that ends at line 66 on the response [body] returns what the
    extraction of [body] gives. *)
Lemma fetch_extracted_inv (max_retries k : Z) (body : json) (v : json * list source) :
  retried net max_retries k ->
  net k = Responded 200 (Ok body) ->
  finish (fetch max_retries) = Return ReturnExtracted v ->
  extract body = Ok v.
Proof.
  intros Hk Hn Hf.
  destruct (extract body) as [v' | e] eqn:He.
  - rewrite (fetch_extracted _ _ _ _ Hk Hn He) in Hf; now inversion Hf.
  - rewrite (fetch_unexpected _ _ _ _ Hk Hn He) in Hf; discriminate Hf.
Qed.

(** C4 (as amended): for a status-200 response whose body is an object that
    lacks 'candidates', or whose first candidate is an object that lacks
    'content', or whose content is an object that lacks 'parts', the call
    returns the placeholder text "No analysis generated." together with the
    citations it extracts from the candidate's grounding metadata, whenever
    that extraction raises nothing; the citation list is empty when the
    candidate has no grounding metadata, as it is when 'candidates' is
    missing. *)
Theorem placeholder_when_answer_missing
    (max_retries k : Z) (body candidate : json) :
  retried net max_retries k ->
  net k = Responded 200 (Ok body) ->
  lacks_answer body candidate ->
  (forall srcs, extract_sources candidate = Ok srcs ->
     finish (fetch max_retries) = Return ReturnExtracted (placeholder, srcs)) /\
  (forall text srcs,
     finish (fetch max_retries) = Return ReturnExtracted (text, srcs) ->
     text = placeholder /\
     srcs = map citation_of (filter cited (attributions_of candidate))) /\
  (forall c, candidate = JDict c -> lookup "groundingMetadata" c = None ->
     finish (fetch max_retries) = Return ReturnExtracted (placeholder, [])) /\
  (forall fields, body = JDict fields -> lookup "candidates" fields = None ->
     finish (fetch max_retries) = Return ReturnExtracted (placeholder, [])).
Proof.
  intros Hk Hn Hl.
  pose proof (extract_lacks_answer _ _ Hl) as He.
  assert (Hs : forall srcs, extract_sources candidate = Ok srcs ->
                 finish (fetch max_retries) = Return ReturnExtracted (placeholder, srcs)).
  { intros srcs Hs; rewrite Hs in He; cbn [bind] in He.
    now rewrite (fetch_extracted _ _ _ _ Hk Hn He). }
  split; [exact Hs |]; split; [| split].
  - intros text srcs Hf.
    pose proof (fetch_extracted_inv _ _ _ _ Hk Hn Hf) as Hv.
    rewrite He in Hv.
    destruct (extract_sources candidate) as [srcs' |] eqn:Hsrc; [| discriminate Hv].
    apply extract_sources_Ok in Hsrc; inversion Hv; subst; now split.
  - intros c -> Hg; apply Hs; now apply extract_sources_no_metadata.
  - intros fields -> Hc; apply Hs.
    inversion Hl as [f _ | f c more Hc' _ | f c more content Hc' _ _]; subst;
      try (rewrite Hc in Hc'; discriminate Hc').
    reflexivity.
Qed.

(** C5: when the call returns from a status-200 response, its citation list
    is, in the order received, the list of the grounding attributions of the
    first candidate whose web title and web URI are both present and
    non-empty, each given as its (title, URI) pair; for text fields this is
    having a non-empty title string and a non-empty URI string; and the three
    attributions of the example yield the single citation ("A", "u1"). *)
Theorem citations_are_the_cited_attributions :
  (forall max_retries k body text srcs,
     retried net max_retries k ->
     net k = Responded 200 (Ok body) ->
     finish (fetch max_retries) = Return ReturnExtracted (text, srcs) ->
     exists candidate,
       first_candidate body = Ok candidate /\
       srcs = map citation_of (filter cited (attributions_of candidate))) /\
  (forall attr,
     well_formed_attribution attr ->
     cited attr =
       nonempty_text (web_entry attr "title") && nonempty_text (web_entry attr "uri")) /\
  (attributions_of
     (JDict [("content", JDict [("parts", JList [JDict [("text", JStr "Markets rose.")]])]);
             grounding example_attributions]) = example_attributions /\
   filter cited example_attributions = firstn 1 example_attributions /\
   forall n, 1 <= n ->
     value (fetch_gemini_response user_query system_prompt (always 200 example_body) n)
       = Some (JStr "Markets rose.", [{| title := JStr "A"; uri := JStr "u1" |}])).
Proof.
  split; [| split; [exact cited_text |]].
  - intros max_retries k body text srcs Hk Hn Hf.
    apply (fetch_extracted_inv _ _ _ _ Hk Hn) in Hf.
    unfold extract in Hf.
    destruct (first_candidate body) as [candidate |]; [| discriminate Hf].
    exists candidate; split; [reflexivity |]; cbn [bind] in Hf.
    destruct (extract_text candidate) as [t |]; [| discriminate Hf]; cbn [bind] in Hf.
    destruct (extract_sources candidate) as [s |] eqn:Hs; [| discriminate Hf].
    inversion Hf; subst; now apply extract_sources_Ok.
  - repeat split.
    intros n Hn; unfold fetch_gemini_response, range, value.
    destruct (Z.to_nat n) as [| m] eqn:Hm; [lia | reflexivity].
Qed.

(** C7: for a status-200 response of the expected shape, the call returns
    the text of the first part of the first candidate as it is, and every
    citation it returns has a non-empty title and a non-empty URI. *)
Theorem well_formed_response_extracted
    (max_retries k : Z) (body : json) (answer : string) :
  retried net max_retries k ->
  net k = Responded 200 (Ok body) ->
  well_formed_response body answer ->
  exists srcs,
    finish (fetch max_retries) = Return ReturnExtracted (JStr answer, srcs) /\
    Forall nonempty_title_and_uri srcs.
Proof.
  intros Hk Hn Hw.
  destruct (extract_well_formed _ _ Hw) as (srcs & He & Hall).
  exists srcs; split; [| exact Hall].
  now rewrite (fetch_extracted _ _ _ _ Hk Hn He).
Qed.

(** C8: for a status-200 response whose 'candidates' is an empty list, or
    whose first candidate's content has an empty 'parts' list, the extraction
    raises IndexError, the generic handler catches it, and the call returns
    ("Error fetching analysis.", []), not the placeholder text. *)
Theorem empty_list_raises_IndexError (max_retries k : Z) (body : json) :
  retried net max_retries k ->
  net k = Responded 200 (Ok body) ->
  empty_list_in body ->
  extract body = Raise (Exception "IndexError" "list index out of range") /\
  finish (fetch max_retries) = Return ReturnUnexpected error_sentinel /\
  value (fetch max_retries) = Some (JStr "Error fetching analysis.", []) /\
  value (fetch max_retries) <> Some (placeholder, []) /\
  last (trace (fetch max_retries)) (Sleep 0) =
    StError "An unexpected error occurred: list index out of range".
Proof.
  intros Hk Hn He.
  pose proof (extract_empty_list _ He) as Hx.
  rewrite (fetch_unexpected _ _ _ _ Hk Hn Hx).
  cbn [finish trace]; unfold value; cbn [finish].
  repeat split; try discriminate; [exact Hx |].
  set (msg := "An unexpected error occurred: list index out of range"%string).
  change (last (backoff rq k ++ [Urlopen rq 10] ++ [StError msg]) (Sleep 0)
          = StError msg).
  rewrite app_assoc; apply last_last.
Qed.

End Claims.

(** ** The claims at concrete responses *)

Lemma retries_exhausted_returns_error_witness :
  (exists reason,
     trace (fetch_gemini_response "q" "s" always_429 5) =
       [Urlopen (req "q" "s") 10; Sleep 1; Urlopen (req "q" "s") 10; Sleep 2;
        Urlopen (req "q" "s") 10; Sleep 4; Urlopen (req "q" "s") 10; Sleep 8;
        Urlopen (req "q" "s") 10;
        StError ("Failed to fetch analysis after multiple retries. API Error: "
                 ++ reason)%string]) /\
  finish (fetch_gemini_response "q" "s" always_429 5)
    = Return ReturnHTTPError error_sentinel /\
  sleeps (trace (fetch_gemini_response "q" "s" always_429 5)) = [1; 2; 4; 8] /\
  attempts_made (trace (fetch_gemini_response "q" "s" always_429 5)) = 5%nat.
Proof.
  apply (retries_exhausted_returns_error "q" "s" always_429).
  intros i _; reflexivity.
Defined.

(** The call the claim C1 describes does not return the pair
    ("Max retries reached. Could not complete the request.", []). *)
Lemma exhaustion_returns_error_not_max_retries :
  (forall i, 0 <= i < 5 -> observes_status (always_429 i) 429) /\
  value (fetch_gemini_response "q" "s" always_429 5) = Some error_sentinel /\
  value (fetch_gemini_response "q" "s" always_429 5) <> Some exhausted_sentinel.
Proof.
  split; [intros i _; reflexivity |].
  split; [reflexivity | discriminate].
Qed.

Lemma never_propagates_witness :
  exists (x : exit_point) (text : json) (sources : list source),
    finish (fetch_gemini_response "q" "s"
              (fun _ => Raised (Exception "URLError" "<urlopen error timed out>")) 5)
      = Return x (text, sources).
Proof.
  apply (never_propagates "q" "s"
           (fun _ => Raised (Exception "URLError" "<urlopen error timed out>")) 5).
  intros i _; simpl; exact I.
Defined.

Lemma backoff_then_success_witness :
  sleeps (trace (fetch_gemini_response "q" "s" (recovers_at_4 example_body) 5))
    = [1; 2; 4; 8] /\
  finish (fetch_gemini_response "q" "s" (recovers_at_4 example_body) 5)
    = Return ReturnExtracted
        (JStr "Markets rose.", [{| title := JStr "A"; uri := JStr "u1" |}]).
Proof.
  apply (backoff_then_success "q" "s" (recovers_at_4 example_body) example_body).
  - intros i Hi; unfold recovers_at_4.
    destruct (Z.ltb_spec i 4); [reflexivity | lia].
  - reflexivity.
  - reflexivity.
Defined.

(** A candidate without 'content' that carries grounding attributions: the
    text is the placeholder and the citation list is not empty, against the
    claim C4. *)
Lemma placeholder_with_citations :
  lacks_answer body_without_content candidate_without_content /\
  value (fetch_gemini_response "q" "s" (always 200 body_without_content) 5)
    = Some (placeholder, [{| title := JStr "A"; uri := JStr "u1" |}]) /\
  value (fetch_gemini_response "q" "s" (always 200 body_without_content) 5)
    <> Some (placeholder, []).
Proof.
  split; [| split; [reflexivity | discriminate]].
  eapply NoContent; reflexivity.
Qed.

Lemma placeholder_when_answer_missing_witness :
  finish (fetch_gemini_response "q" "s" (always 200 (JDict [])) 5)
    = Return ReturnExtracted (placeholder, []).
Proof.
  refine (proj1 (placeholder_when_answer_missing "q" "s" (always 200 (JDict [])) 5 0
                   (JDict []) (JDict []) _ _ _) [] _).
  - split; [lia | intros i Hi; lia].
  - reflexivity.
  - apply NoCandidates; reflexivity.
  - reflexivity.
Defined.

Lemma citations_are_the_cited_attributions_witness :
  exists candidate,
    first_candidate example_body = Ok candidate /\
    [{| title := JStr "A"; uri := JStr "u1" |}]
      = map citation_of (filter cited (attributions_of candidate)).
Proof.
  refine (proj1 (citations_are_the_cited_attributions "q" "s" (always 200 example_body))
            5 0 example_body (JStr "Markets rose.") _ _ _ _).
  - split; [lia | intros i Hi; lia].
  - reflexivity.
  - reflexivity.
Defined.

Lemma non_retryable_status_fails_at_once_witness :
  finish (fetch_gemini_response "q" "s" (fun _ => Raised (HTTPError 404 "Not Found")) 5)
    = Return ReturnHTTPError error_sentinel /\
  sleeps (trace (fetch_gemini_response "q" "s" (fun _ => Raised (HTTPError 404 "Not Found")) 5))
    = [] /\
  attempts_made
    (trace (fetch_gemini_response "q" "s" (fun _ => Raised (HTTPError 404 "Not Found")) 5))
    = 1%nat.
Proof.
  apply (non_retryable_status_fails_at_once "q" "s"
           (fun _ => Raised (HTTPError 404 "Not Found")) 5 404).
  - lia.
  - reflexivity.
  - lia.
  - reflexivity.
Defined.

Lemma well_formed_response_extracted_witness :
  exists srcs,
    finish (fetch_gemini_response "q" "s" (always 200 example_body) 5)
      = Return ReturnExtracted (JStr "Markets rose.", srcs) /\
    Forall nonempty_title_and_uri srcs.
Proof.
  apply (well_formed_response_extracted "q" "s" (always 200 example_body) 5 0 example_body).
  - split; [lia | intros i Hi; lia].
  - reflexivity.
  - unfold well_formed_response, example_body.
    do 6 eexists; repeat split; try reflexivity.
    unfold well_formed_grounding; simpl.
    repeat constructor.
Defined.

Lemma empty_list_raises_IndexError_witness :
  value (fetch_gemini_response "q" "s" (always 200 body_with_no_candidates) 5)
    = Some (JStr "Error fetching analysis.", []).
Proof.
  refine (proj1 (proj2 (proj2
            (empty_list_raises_IndexError "q" "s" (always 200 body_with_no_candidates)
               5 0 body_with_no_candidates _ _ _)))).
  - split; [lia | intros i Hi; lia].
  - reflexivity.
  - apply EmptyCandidates; reflexivity.
Defined.

Lemma post_loop_return_unreachable_witness :
  finish (fetch_gemini_response "q" "s" always_429 5)
    <> Return ReturnAfterLoop exhausted_sentinel.
Proof.
  refine (proj2 (post_loop_return_unreachable "q" "s" always_429 5 _) exhausted_sentinel).
  lia.
Defined.

Lemma no_attempt_without_retries_witness :
  attempts_made (trace (fetch_gemini_response "q" "s" always_429 0)) = 0%nat /\
  finish (fetch_gemini_response "q" "s" always_429 (-3))
    = Return ReturnAfterLoop exhausted_sentinel.
Proof.
  split.
  - refine (proj1 (proj2 (no_attempt_without_retries "q" "s" always_429 0 _))); lia.
  - refine (proj2 (proj2 (proj2 (no_attempt_without_retries "q" "s" always_429 (-3) _)))); lia.
Defined.

(** ** The shape of every run *)

Section Runs.

Variable user_query : string.
Variable system_prompt : string.
Variable net : Z -> outcome.

Let rq := req user_query system_prompt.
Let body_at := loop_body user_query system_prompt net.
Let loop := for_attempts user_query system_prompt net.
Let fetch := fetch_gemini_response user_query system_prompt net.
Let ends := ends_at user_query system_prompt net.

(** A pass goes on only after an [HTTPError] with a retried code, before the
    last index, and with the wait [2 ^ i]. *)
Lemma loop_body_Continue_inv (max_retries i : Z) (evs : list event) :
  body_at max_retries i = Continue evs ->
  raises_retryable (net i) /\ i < max_retries - 1 /\
  evs = [Urlopen rq 10; Sleep (2 ^ i)].
Proof.
  subst body_at; unfold loop_body, raises_retryable.
  destruct (attempt_body (net i))
    as [[text sources] | [code reason | cls msg | cls msg]] eqn:Hb;
    try discriminate.
  destruct (Z.ltb_spec i (max_retries - 1)) as [Hlt | Hge]; cbn [andb];
    [| discriminate].
  destruct (mem code [429; 500; 503]) eqn:Hm; [| discriminate].
  intros Heq; inversion Heq; split; [| split; [exact Hlt | reflexivity]].
  now exists code, reason.
Qed.

(** A pass that ends the call makes one request and, at the two [return]
    statements of the handlers only, one [st.error] after it. *)
Lemma loop_body_Finish_inv (max_retries i : Z) (evs : list event) (c : completion) :
  body_at max_retries i = Finish evs c ->
  exists msg,
    evs = Urlopen rq 10 :: (if failure_exit c then [StError msg] else []).
Proof.
  subst body_at; unfold loop_body.
  destruct (attempt_body (net i)) as [[text sources] | [code reason | cls msg | cls msg]].
  - intros H; inversion H; now exists ""%string.
  - destruct ((i <? max_retries - 1) && mem code [429; 500; 503]); [discriminate |].
    intros H; inversion H; now eexists.
  - intros H; inversion H; now eexists.
  - intros H; inversion H; now exists ""%string.
Qed.

Lemma for_attempts_continues (max_retries : Z) (k : nat) :
  forall (a : nat) (rest : list Z),
    (forall i, Z.of_nat a <= i < Z.of_nat (a + k) ->
       body_at max_retries i = Continue [Urlopen rq 10; Sleep (2 ^ i)]) ->
    loop max_retries (map Z.of_nat (seq a k) ++ rest) =
    prepend (flat_map (fun i => [Urlopen rq 10; Sleep (2 ^ i)]) (map Z.of_nat (seq a k)))
      (loop max_retries rest).
Proof.
  induction k as [| k IH]; intros a rest Hc.
  - simpl; unfold prepend; simpl; now destruct (loop max_retries rest).
  - subst loop; simpl.
    fold (body_at max_retries (Z.of_nat a)).
    rewrite Hc by lia.
    rewrite IH by (intros i Hi; apply Hc; lia).
    unfold prepend; simpl; reflexivity.
Qed.

(** A run is its backed-off passes followed by the pass that ends it. *)
Lemma fetch_ends_at (max_retries k : Z) (evs : list event) (c : completion) :
  ends max_retries k evs c ->
  fetch max_retries = {| trace := backoff rq k ++ evs; finish := c |}.
Proof.
  intros (Hk & Hc & Hf); subst fetch; unfold fetch_gemini_response.
  rewrite (range_at _ _ Hk); unfold range.
  fold loop; rewrite for_attempts_continues.
  - subst loop; cbn [for_attempts]; rewrite Hf; reflexivity.
  - intros i Hi; apply Hc; lia.
Qed.

(** With at least one attempt allowed, some pass ends the call. *)
Lemma some_pass_ends (max_retries : Z) :
  1 <= max_retries -> exists k evs c, ends max_retries k evs c.
Proof.
  intros Hm.
  assert (H : forall n : nat, Z.of_nat n <= max_retries ->
            (forall i, 0 <= i < Z.of_nat n ->
               body_at max_retries i = Continue [Urlopen rq 10; Sleep (2 ^ i)]) \/
            exists k evs c, ends max_retries k evs c).
  { induction n as [| n IH]; intros Hn; [left; intros i Hi; lia |].
    destruct IH as [Hc | He]; [lia | | now right].
    destruct (body_at max_retries (Z.of_nat n)) as [evs | evs c] eqn:Hb.
    - left; intros i Hi.
      destruct (Z.eq_dec i (Z.of_nat n)) as [-> | Hne]; [| apply Hc; lia].
      now destruct (loop_body_Continue_inv _ _ _ Hb) as (_ & _ & <-).
    - right; exists (Z.of_nat n), evs, c; repeat split; try lia; assumption. }
  destruct (H (Z.to_nat max_retries) ltac:(lia)) as [Hc | He]; [| exact He].
  exfalso.
  apply (loop_body_last_finishes user_query system_prompt net max_retries
           [Urlopen rq 10; Sleep (2 ^ (max_retries - 1))]).
  apply Hc; lia.
Qed.

(** Every run: either no attempt is allowed and the call returns after the
    loop at once, or the run is [k] backed-off attempts and the attempt that
    ends it. *)
Lemma fetch_shape (max_retries : Z) :
  (max_retries <= 0 /\
   fetch max_retries =
     {| trace := []; finish := Return ReturnAfterLoop exhausted_sentinel |}) \/
  (exists k c msg,
     ends max_retries k (Urlopen rq 10 :: (if failure_exit c then [StError msg] else [])) c /\
     fetch max_retries =
       {| trace := backoff rq k ++
                   Urlopen rq 10 :: (if failure_exit c then [StError msg] else []);
          finish := c |}).
Proof.
  destruct (Z_le_gt_dec max_retries 0) as [Hm | Hm].
  - left; split; [exact Hm |].
    subst fetch; unfold fetch_gemini_response, range.
    now replace (Z.to_nat max_retries) with 0%nat by lia.
  - right.
    destruct (some_pass_ends max_retries ltac:(lia)) as (k & evs & c & He).
    pose proof He as (_ & _ & Hf).
    destruct (loop_body_Finish_inv _ _ _ _ Hf) as (msg & ->).
    exists k, c, msg; split; [exact He | now apply fetch_ends_at].
Qed.

Lemma notifications_app (a b : list event) :
  notifications (a ++ b) = notifications a ++ notifications b.
Proof. unfold notifications; now rewrite flat_map_app. Qed.

Lemma notifications_backoff (r : Request) (k : Z) : notifications (backoff r k) = [].
Proof.
  unfold backoff; induction (range k) as [| i l IH]; [reflexivity | exact IH].
Qed.

Lemma total_powers (k : nat) :
  total (map (fun i => 2 ^ i) (map Z.of_nat (seq 0 k))) = 2 ^ Z.of_nat k - 1.
Proof.
  induction k as [| k IH]; [reflexivity |].
  rewrite seq_S, !map_app; cbn [map Nat.add].
  unfold total in *; rewrite fold_right_app; cbn [fold_right].
  assert (Hg : forall (l : list Z) (x : Z), fold_right Z.add x l = fold_right Z.add 0 l + x).
  { induction l as [| y l IHl]; intros x; cbn [fold_right]; [lia |].
    rewrite IHl; lia. }
  rewrite Hg, IH, Nat2Z.inj_succ, Z.pow_succ_r by lia; lia.
Qed.

End Runs.

(** ** Properties of every run *)

Section RunProperties.

Variable user_query : string.
Variable system_prompt : string.
Variable net : Z -> outcome.

Let rq := req user_query system_prompt.
Let body_at := loop_body user_query system_prompt net.
Let fetch := fetch_gemini_response user_query system_prompt net.

Lemma sleeps_last_pass (c : completion) (msg : string) :
  sleeps (Urlopen rq 10 :: (if failure_exit c then [StError msg] else [])) = [].
Proof. now destruct (failure_exit c). Qed.

Lemma attempts_made_last_pass (c : completion) (msg : string) :
  attempts_made (Urlopen rq 10 :: (if failure_exit c then [StError msg] else [])) = 1%nat.
Proof. now destruct (failure_exit c). Qed.

Lemma range_to_nat (k : Z) : 0 <= k -> range (Z.of_nat (Z.to_nat k + 1) - 1) = range k.
Proof. intros Hk; f_equal; lia. Qed.

(** X1: every run is request, wait 1, request, wait 2, request, wait 4, ...,
    request, with at most one [st.error] after the last request: one wait
    between each attempt and the next, none before the first attempt and
    none after the last, the waits doubling from 1.  For [max_retries <= 0]
    the run is empty; otherwise the attempts are at most [max_retries]. *)
Theorem waits_double_between_attempts (max_retries : Z) :
  ((max_retries <= 0 /\ trace (fetch max_retries) = []) \/
   (exists k msg,
      0 <= k < max_retries /\
      attempts_made (trace (fetch max_retries)) = (Z.to_nat k + 1)%nat /\
      (trace (fetch max_retries) =
         flat_map (fun i => [Urlopen rq 10; Sleep (2 ^ i)]) (range k)
         ++ [Urlopen rq 10] \/
       trace (fetch max_retries) =
         flat_map (fun i => [Urlopen rq 10; Sleep (2 ^ i)]) (range k)
         ++ [Urlopen rq 10; StError msg]))) /\
  sleeps (trace (fetch max_retries)) =
    map (fun i => 2 ^ i)
        (range (Z.of_nat (attempts_made (trace (fetch max_retries))) - 1)) /\
  Z.of_nat (attempts_made (trace (fetch max_retries))) <= Z.max 0 max_retries.
Proof.
  subst fetch.
  destruct (fetch_shape user_query system_prompt net max_retries)
    as [[Hm ->] | (k & c & msg & (Hk & _) & ->)]; cbn [trace].
  - split; [left; now split |].
    split; [reflexivity | cbn; lia].
  - rewrite sleeps_app, attempts_made_app, sleeps_backoff, attempts_made_backoff.
    fold rq; rewrite sleeps_last_pass, attempts_made_last_pass, app_nil_r.
    rewrite range_to_nat by lia.
    split; [| split; [reflexivity | lia]].
    right; exists k, msg; split; [exact Hk |]; split; [reflexivity |].
    unfold backoff; destruct (failure_exit c); [right | left]; reflexivity.
Qed.

(** X2: with at least one attempt allowed, the waits of a run add up to
    [2 ^ (n - 1) - 1] for its [n] attempts, hence to at most
    [2 ^ (max_retries - 1) - 1]. *)
Theorem total_wait_bounded (max_retries : Z) :
  1 <= max_retries ->
  total (sleeps (trace (fetch max_retries))) =
    2 ^ (Z.of_nat (attempts_made (trace (fetch max_retries))) - 1) - 1 /\
  total (sleeps (trace (fetch max_retries))) <= 2 ^ (max_retries - 1) - 1.
Proof.
  intros Hm; subst fetch.
  destruct (fetch_shape user_query system_prompt net max_retries)
    as [[Hm' _] | (k & c & msg & (Hk & _) & ->)]; [lia |]; cbn [trace].
  rewrite sleeps_app, attempts_made_app, sleeps_backoff, attempts_made_backoff.
  fold rq; rewrite sleeps_last_pass, attempts_made_last_pass, app_nil_r.
  unfold range; rewrite total_powers, Z2Nat.id by lia.
  split; [f_equal; f_equal; lia |].
  assert (2 ^ k <= 2 ^ (max_retries - 1)) by (apply Z.pow_le_mono_r; lia).
  lia.
Qed.

(** X3: every request of a run is the same request, built from the query and
    the system prompt, and is sent with the timeout 10. *)
Theorem every_request_is_the_same (max_retries : Z) :
  Forall (fun ev => match ev with
                    | Urlopen r timeout =>
                        r = rq /\ timeout = 10 /\
                        data r = payload user_query system_prompt
                    | _ => True
                    end)
         (trace (fetch max_retries)).
Proof.
  subst fetch.
  destruct (fetch_shape user_query system_prompt net max_retries)
    as [[Hm ->] | (k & c & msg & _ & ->)]; cbn [trace]; [constructor |].
  apply Forall_app; split.
  - unfold backoff; induction (range k) as [| i l IH]; [constructor |].
    cbn [flat_map app]; repeat constructor; exact IH.
  - destruct (failure_exit c); repeat constructor.
Qed.

(** X4: a call passes one message to [st.error] when it ends at one of the
    two [return] statements of the handlers, as the last thing it does, and
    none otherwise. *)
Theorem error_notified_exactly_once (max_retries : Z) :
  exists msg,
    notifications (trace (fetch max_retries)) =
      (if failure_exit (finish (fetch max_retries)) then [msg] else []) /\
    (failure_exit (finish (fetch max_retries)) = true ->
     last (trace (fetch max_retries)) (Sleep 0) = StError msg).
Proof.
  subst fetch.
  destruct (fetch_shape user_query system_prompt net max_retries)
    as [[Hm ->] | (k & c & msg & _ & ->)]; cbn [trace finish].
  - exists ""%string; split; [reflexivity | discriminate].
  - exists msg; rewrite notifications_app, notifications_backoff.
    destruct (failure_exit c); split; try reflexivity; try discriminate.
    intros _.
    change (backoff (req user_query system_prompt) k ++
            [Urlopen (req user_query system_prompt) 10; StError msg])
      with (backoff rq k ++ [Urlopen rq 10] ++ [StError msg]).
    rewrite app_assoc; apply last_last.
Qed.

(** X5: a call makes a further attempt only when the attempt before it
    raised an [HTTPError] with code 429, 500 or 503 and was not the last one
    allowed. *)
Theorem further_attempt_only_after_retryable (max_retries i : Z) :
  0 <= i ->
  i + 1 < Z.of_nat (attempts_made (trace (fetch max_retries))) ->
  raises_retryable (net i) /\ i < max_retries - 1.
Proof.
  intros Hi; subst fetch.
  destruct (fetch_shape user_query system_prompt net max_retries)
    as [[Hm ->] | (k & c & msg & (Hk & Hc & _) & ->)]; cbn [trace].
  - cbn; lia.
  - rewrite attempts_made_app, attempts_made_backoff.
    fold rq; rewrite attempts_made_last_pass; intros Hlt.
    destruct (loop_body_Continue_inv user_query system_prompt net max_retries i _
                (Hc i ltac:(lia))) as (Hr & Hb & _).
    now split.
Qed.



End RunProperties.

(** ** Faults, statuses and bodies at the attempt that ends the call *)

Lemma web_field_readable (attr : json) (key : string) :
  attribution_readable attr = true ->
  web_field attr key = Ok (or_None (web_entry attr key)).
Proof.
  unfold attribution_readable, web_field, web_entry, get.
  destruct attr as [| | | | | |a]; try discriminate.
  destruct (lookup "web" a) as [[| | | | | |w] |]; try discriminate; intros _; simpl.
  - now destruct (lookup key w).
  - reflexivity.
Qed.

Lemma web_field_unreadable (attr : json) (key : string) :
  attribution_readable attr = false -> exists e, web_field attr key = Raise e.
Proof.
  unfold attribution_readable, web_field, get.
  destruct attr as [| | | | | |a]; try (intros _; eexists; reflexivity).
  destruct (lookup "web" a) as [[| | | | | |w] |]; try discriminate;
    intros _; eexists; reflexivity.
Qed.

(** One attribution that cannot be read makes the comprehension raise,
    wherever it stands in the list. *)
Lemma comprehension_unreadable (attrs : list json) :
  forallb attribution_readable attrs = false ->
  exists e, comprehension attrs = Raise e.
Proof.
  induction attrs as [| attr rest IH]; [discriminate |].
  cbn [forallb comprehension].
  destruct (attribution_readable attr) eqn:Hr; cbn [andb]; intros Hf.
  - destruct (IH Hf) as (e & He).
    rewrite !(web_field_readable _ _ Hr); cbn [bind].
    destruct (truthy (or_None (web_entry attr "uri"))); cbn [bind];
      [destruct (truthy (or_None (web_entry attr "title"))); cbn [bind] |];
      rewrite He; now exists e.
  - destruct (web_field_unreadable attr "uri" Hr) as (e & ->); now exists e.
Qed.

Lemma cited_truthy (attr : json) :
  cited attr = true ->
  truthy (title (citation_of attr)) = true /\ truthy (uri (citation_of attr)) = true.
Proof.
  unfold cited; intros H; apply andb_true_iff in H as [Ht Hu].
  unfold citation_of; cbn [title uri]; now rewrite !truthy_or_None.
Qed.

Section Endings.

Variable user_query : string.
Variable system_prompt : string.
Variable net : Z -> outcome.

Let rq := req user_query system_prompt.
Let fetch := fetch_gemini_response user_query system_prompt net.

Lemma last_two (pre : list event) (a b : event) (d : event) :
  last (pre ++ [a; b]) d = b.
Proof.
  change (pre ++ [a; b]) with (pre ++ [a] ++ [b]).
  rewrite app_assoc; apply last_last.
Qed.

(** X7: an exception other than [HTTPError], raised by [urlopen] (a timeout,
    a refused connection) or while the status-200 body is read and decoded,
    is not retried: the attempt that meets it ends the call with the pair
    ("Error fetching analysis.", []) and the message of the exception is
    shown. *)
Theorem fault_is_not_retried (max_retries k : Z) (cls msg : string) :
  retried net max_retries k ->
  net k = Raised (Exception cls msg) \/
  net k = Responded 200 (Raise (Exception cls msg)) ->
  finish (fetch max_retries) = Return ReturnUnexpected error_sentinel /\
  attempts_made (trace (fetch max_retries)) = (Z.to_nat k + 1)%nat /\
  last (trace (fetch max_retries)) (Sleep 0) =
    StError ("An unexpected error occurred: " ++ msg)%string.
Proof.
  intros Hk Hn.
  assert (Hb : attempt_body (net k) = Raise (Exception cls msg))
    by (destruct Hn as [-> | ->]; reflexivity).
  assert (Hl : loop_body user_query system_prompt net max_retries k =
               Finish [Urlopen rq 10;
                       StError ("An unexpected error occurred: " ++ msg)%string]
                 (Return ReturnUnexpected error_sentinel))
    by (unfold loop_body; now rewrite Hb).
  subst fetch; rewrite (fetch_finishes_at _ _ _ _ _ _ _ Hk Hl); cbn [trace finish].
  rewrite attempts_made_app, attempts_made_backoff, last_two.
  repeat split.
Qed.

(** X8: a status other than 200 that is not retried (it is not 429, 500 or
    503, or the attempt is the last one allowed) ends the call with the pair
    ("Error fetching analysis.", []); the body of such a response is not
    read, and for a status read off the response, a 2xx one included, the
    reason shown is "HTTP Error: <status>". *)
Theorem status_not_retried_ends_call (max_retries k s : Z) :
  retried net max_retries k ->
  observes_status (net k) s ->
  s <> 200 ->
  mem s [429; 500; 503] = false \/ k = max_retries - 1 ->
  finish (fetch max_retries) = Return ReturnHTTPError error_sentinel /\
  attempts_made (trace (fetch max_retries)) = (Z.to_nat k + 1)%nat /\
  sleeps (trace (fetch max_retries)) = map (fun i => 2 ^ i) (range k) /\
  (forall body, net k = Responded s body ->
     last (trace (fetch max_retries)) (Sleep 0) =
       StError ("Failed to fetch analysis after multiple retries. API Error: HTTP Error: "
                ++ str_int s)%string).
Proof.
  intros Hk Hs Hne Hc.
  destruct (attempt_body_status _ _ Hs Hne) as (reason & Hb).
  assert (Hl : loop_body user_query system_prompt net max_retries k =
               Finish [Urlopen rq 10;
                       StError ("Failed to fetch analysis after multiple retries. API Error: "
                                ++ reason)%string]
                 (Return ReturnHTTPError error_sentinel)).
  { destruct Hc as [Hm | ->].
    - exact (loop_body_not_retried _ _ _ max_retries _ _ _ Hb Hm).
    - exact (loop_body_last _ _ _ max_retries _ _ _ Hb ltac:(lia)). }
  subst fetch; rewrite (fetch_finishes_at _ _ _ _ _ _ _ Hk Hl); cbn [trace finish].
  rewrite attempts_made_app, attempts_made_backoff, sleeps_app, sleeps_backoff, last_two.
  repeat split; [now rewrite app_nil_r |].
  intros body Hn; rewrite Hn in Hb; unfold attempt_body in Hb.
  destruct (Z.eqb_spec s 200); [contradiction |].
  cbn [negb] in Hb; now inversion Hb.
Qed.

(** X9: a status-200 response whose JSON is not an object (null, a boolean,
    a number, a string or a list) ends the call with the pair
    ("Error fetching analysis.", []), not with the placeholder text. *)
Theorem non_object_body_is_an_error (max_retries k : Z) (body : json) :
  retried net max_retries k ->
  net k = Responded 200 (Ok body) ->
  (forall fields, body <> JDict fields) ->
  finish (fetch max_retries) = Return ReturnUnexpected error_sentinel /\
  last (trace (fetch max_retries)) (Sleep 0) =
    StError ("An unexpected error occurred: '" ++ type_name body
             ++ "' object has no attribute 'get'")%string.
Proof.
  intros Hk Hn Hb.
  assert (He : extract body =
               Raise (Exception "AttributeError"
                        ("'" ++ type_name body ++ "' object has no attribute 'get'")%string)).
  { destruct body; try reflexivity. now contradiction (Hb fields). }
  subst fetch; rewrite (fetch_unexpected _ _ _ _ _ _ _ Hk Hn He); cbn [trace finish].
  now rewrite last_two.
Qed.

(** X10: whatever the response, every citation a call returns from it has a
    true title and a true URI, so none is missing, null or empty. *)
Theorem citations_always_truthy
    (max_retries k : Z) (body text : json) (srcs : list source) :
  retried net max_retries k ->
  net k = Responded 200 (Ok body) ->
  finish (fetch max_retries) = Return ReturnExtracted (text, srcs) ->
  Forall (fun s => truthy (title s) = true /\ truthy (uri s) = true) srcs.
Proof.
  intros Hk Hn Hf.
  apply (fetch_extracted_inv _ _ _ _ _ _ _ Hk Hn) in Hf.
  unfold extract in Hf.
  destruct (first_candidate body) as [candidate |]; [| discriminate Hf].
  cbn [bind] in Hf.
  destruct (extract_text candidate) as [t |]; [| discriminate Hf]; cbn [bind] in Hf.
  destruct (extract_sources candidate) as [s |] eqn:Hs; [| discriminate Hf].
  inversion Hf; subst; apply extract_sources_Ok in Hs; subst.
  apply Forall_forall; intros x Hx.
  apply in_map_iff in Hx as (attr & <- & Hin).
  apply filter_In in Hin as [_ Hc]; now apply cited_truthy.
Qed.

(** X11: when one grounding attribution of the first candidate is not an
    object, or has a 'web' that is not an object, the call returns the pair
    ("Error fetching analysis.", []) even if the answer text and every other
    attribution are there. *)
Theorem unreadable_attribution_fails_call
    (max_retries k : Z) (body : json) (c gm : list (string * json)) (attrs : list json) :
  retried net max_retries k ->
  net k = Responded 200 (Ok body) ->
  first_candidate body = Ok (JDict c) ->
  lookup "groundingMetadata" c = Some (JDict gm) ->
  lookup "groundingAttributions" gm = Some (JList attrs) ->
  forallb attribution_readable attrs = false ->
  finish (fetch max_retries) = Return ReturnUnexpected error_sentinel.
Proof.
  intros Hk Hn Hc Hg Ha Hr.
  assert (He : exists e, extract body = Raise e).
  { unfold extract; rewrite Hc; cbn [bind].
    destruct (extract_text (JDict c)) as [t | e]; [| now exists e]; cbn [bind].
    unfold extract_sources, get, getitem; rewrite Hg; cbn [bind].
    destruct gm as [| kv gm']; [discriminate Ha |].
    cbn [truthy]; rewrite Ha; cbn [bind].
    destruct attrs as [| attr rest]; [discriminate Hr |].
    cbn [truthy iter bind].
    destruct (comprehension_unreadable _ Hr) as (e & ->); now exists e. }
  destruct He as (e & He).
  subst fetch; now rewrite (fetch_unexpected _ _ _ _ _ _ _ Hk Hn He).
Qed.

(** X12: when the first part of the first candidate is an object without
    'text', the call returns the placeholder text "No analysis generated."
    with the citations of the candidate. *)
Theorem placeholder_when_text_missing
    (max_retries k : Z) (fields c content part : list (string * json))
    (more_candidates more_parts : list json) (srcs : list source) :
  retried net max_retries k ->
  net k = Responded 200 (Ok (JDict fields)) ->
  lookup "candidates" fields = Some (JList (JDict c :: more_candidates)) ->
  lookup "content" c = Some (JDict content) ->
  lookup "parts" content = Some (JList (JDict part :: more_parts)) ->
  lookup "text" part = None ->
  extract_sources (JDict c) = Ok srcs ->
  finish (fetch max_retries) = Return ReturnExtracted (placeholder, srcs).
Proof.
  intros Hk Hn Hc Hct Hp Ht Hs.
  assert (He : extract (JDict fields) = Ok (placeholder, srcs)).
  { unfold extract, first_candidate, extract_text, get.
    rewrite Hc; cbn [bind index0]; rewrite Hct; cbn [bind]; rewrite Hp; cbn [bind index0].
    rewrite Ht; cbn [bind]; now rewrite Hs. }
  subst fetch; now rewrite (fetch_extracted _ _ _ _ _ _ _ Hk Hn He).
Qed.

End Endings.

(** ** The block under the button *)

Lemma lstrip_blank (s : string) : blank s = true -> lstrip s = EmptyString.
Proof.
  unfold blank; induction s as [| c s IH]; [reflexivity |].
  cbn [list_ascii_of_string forallb lstrip]; intros H.
  apply andb_true_iff in H as [-> H]; now apply IH.
Qed.

Lemma lstrip_not_blank (s : string) :
  blank s = false ->
  exists c rest, lstrip s = String c rest /\ isspace c = false.
Proof.
  unfold blank; induction s as [| c s IH]; [discriminate |].
  cbn [list_ascii_of_string forallb lstrip].
  destruct (isspace c) eqn:Hc; cbn [andb]; [exact IH |].
  intros _; now exists c, s.
Qed.

Lemma rstrip_keeps_head (c : ascii) (rest : string) :
  isspace c = false -> rstrip (String c rest) <> EmptyString.
Proof.
  intros Hc; cbn [rstrip]; rewrite Hc.
  destruct (rstrip rest); discriminate.
Qed.

(** [not topic.strip()] holds for the blank strings and for no other. *)
Lemma strip_truthy (s : string) : truthy (JStr (strip s)) = negb (blank s).
Proof.
  unfold strip; destruct (blank s) eqn:Hb.
  - now rewrite (lstrip_blank _ Hb).
  - destruct (lstrip_not_blank _ Hb) as (c & rest & -> & Hc).
    pose proof (rstrip_keeps_head c rest Hc) as Hne.
    cbn [truthy negb]; destruct (rstrip (String c rest)); [contradiction | reflexivity].
Qed.

Lemma client_events_app (a b : list ui_call) :
  client_events (a ++ b) = client_events a ++ client_events b.
Proof. unfold client_events; now rewrite flat_map_app. Qed.

Lemma client_events_map (tr : list event) : client_events (map Client tr) = tr.
Proof.
  induction tr as [| ev tr IH]; [reflexivity |].
  cbn [map]; unfold client_events in *; cbn [flat_map app]; now rewrite IH.
Qed.

Lemma range_snoc (n : nat) :
  range (Z.of_nat (S n)) = range (Z.of_nat n) ++ [Z.of_nat n].
Proof.
  unfold range; rewrite !Nat2Z.id, seq_S, map_app; reflexivity.
Qed.

Lemma length_range (n : nat) : List.length (range (Z.of_nat n)) = n.
Proof. unfold range; now rewrite length_map, length_seq, Nat2Z.id. Qed.

Lemma combine_snoc {A B : Type} (l : list A) (a : A) :
  forall (l' : list B) (b : B),
    List.length l = List.length l' ->
    combine (l ++ [a]) (l' ++ [b]) = combine l l' ++ [(a, b)].
Proof.
  induction l as [| x l IH]; intros [| y l'] b Hl; try discriminate Hl.
  - reflexivity.
  - cbn [app combine]; f_equal; apply IH; now inversion Hl.
Qed.

Lemma enumerate_snoc {A : Type} (l : list A) (x : A) :
  enumerate (l ++ [x]) = enumerate l ++ [(Z.of_nat (List.length l), x)].
Proof.
  unfold enumerate; rewrite length_app; cbn [List.length].
  rewrite Nat.add_1_r, range_snoc.
  now rewrite combine_snoc by apply length_range.
Qed.

Section PageProperties.

Variable str : json -> string.
Variable net : Z -> outcome.

Let query (topic : string) : string :=
  ("Find the latest news and key findings for: " ++ topic)%string.
Let fetch (topic : string) : run :=
  fetch_gemini_response (query topic) system_prompt_text net 5.
Let block := analysis_block str net.

Lemma client_events_show (topic : string) (analysis : json) (sources : list source) :
  client_events (show str topic analysis sources) = [].
Proof. unfold show; now destruct sources. Qed.

(** The requests, waits and messages of the block are those of the one call
    of [fetch_gemini_response] it makes, when it makes one. *)
Lemma client_events_block (topic : string) (clicked : bool) :
  client_events (calls (block topic clicked)) =
    if clicked && negb (blank topic) then trace (fetch topic) else [].
Proof.
  subst block; unfold analysis_block.
  destruct clicked; [| reflexivity]; cbn [andb].
  rewrite strip_truthy; destruct (blank topic); cbn [negb]; [reflexivity |].
  fold (query topic); fold (fetch topic).
  destruct (finish (fetch topic)) as [x [analysis sources] | e]; cbn [calls];
    change (SpinnerEnter ?t :: ?l) with ([SpinnerEnter t] ++ l);
    rewrite !client_events_app, client_events_map; cbn [client_events flat_map app];
    [rewrite client_events_show |]; now rewrite app_nil_r.
Qed.

(** X13: a click with an empty or all-whitespace topic shows the warning and
    nothing else: no request is sent. *)
Theorem blank_topic_sends_nothing (topic : string) :
  blank topic = true ->
  block topic true =
    {| calls := [StWarning "Please enter a topic to analyze."]; raised := None |} /\
  forall clicked, client_events (calls (block topic clicked)) = [].
Proof.
  intros Hb; split.
  - subst block; unfold analysis_block; now rewrite strip_truthy, Hb.
  - intros clicked; rewrite client_events_block, Hb; now destruct clicked.
Qed.

(** X14: for a topic that is not blank, every request of the click carries
    the query "Find the latest news and key findings for: " followed by the
    topic as it was typed, surrounding whitespace included, and the fixed
    system prompt. *)
Theorem query_carries_topic_as_typed (topic : string) :
  blank topic = false ->
  Forall (fun ev => match ev with
                    | Urlopen r timeout =>
                        data r = payload (query topic) system_prompt_text /\
                        timeout = 10
                    | _ => True
                    end)
         (client_events (calls (block topic true))) /\
  exists first rest, client_events (calls (block topic true)) = first :: rest /\
                     first = Urlopen (req (query topic) system_prompt_text) 10.
Proof.
  intros Hb; rewrite client_events_block, Hb; cbn [andb negb]; subst fetch; cbv beta.
  destruct (fetch_shape (query topic) system_prompt_text net 5)
    as [[Hm _] | (k & c & msg & _ & ->)]; [lia |]; cbn [trace].
  split.
  - apply Forall_app; split.
    + unfold backoff; induction (range k) as [| i l IH]; [constructor |].
      cbn [flat_map app]; repeat constructor; exact IH.
    + destruct (failure_exit c); repeat constructor.
  - unfold backoff; destruct (range k) as [| i l]; cbn [flat_map app];
      eexists; eexists; split; reflexivity.
Qed.

Lemma failure_value (user_query system_prompt : string) (max_retries : Z) :
  failure_exit (finish (fetch_gemini_response user_query system_prompt net max_retries)) = true ->
  exists x,
    finish (fetch_gemini_response user_query system_prompt net max_retries)
      = Return x error_sentinel.
Proof.
  destruct (fetch_shape user_query system_prompt net max_retries)
    as [[Hm ->] | (k & c & msg & (_ & _ & Hf) & ->)]; cbn [finish]; [discriminate |].
  revert Hf; unfold loop_body.
  destruct (attempt_body (net k)) as [[text sources] | [code reason | cls m | cls m]].
  - intros H; inversion H; subst; discriminate.
  - destruct ((k <? max_retries - 1) && mem code [429; 500; 503]); [discriminate |].
    intros H; inversion H; subst; now eexists.
  - intros H; inversion H; subst; now eexists.
  - intros H; inversion H; subst; discriminate.
Qed.

(** X15: when the call of a click ends at one of the two [return] statements
    of the handlers, the page shows, after the [st.error] message of the
    call, the text "Error fetching analysis." in the box of the analysis and
    the note that no sources were cited. *)
Theorem failure_is_shown_as_analysis (topic : string) :
  blank topic = false ->
  failure_exit (finish (fetch topic)) = true ->
  calls (block topic true) =
    SpinnerEnter "Contacting market analysts (Gemini)..." ::
    map Client (trace (fetch topic)) ++
    [StSubheader ("Analysis for: " ++ topic)%string;
     StInfo (JStr "Error fetching analysis.");
     StMarkdown "_Note: No direct web sources were cited for this analysis._";
     SpinnerExit] /\
  raised (block topic true) = None /\
  exists msg, last (trace (fetch topic)) (Sleep 0) = StError msg.
Proof.
  intros Hb Hf; subst fetch query; cbv beta in *.
  destruct (failure_value _ _ _ Hf) as (x & Hx).
  split; [| split].
  - subst block; unfold analysis_block; rewrite strip_truthy, Hb; cbn [negb].
    now rewrite Hx.
  - subst block; unfold analysis_block; rewrite strip_truthy, Hb; cbn [negb].
    now rewrite Hx.
  - revert Hf.
    destruct (fetch_shape ("Find the latest news and key findings for: " ++ topic)%string
                system_prompt_text net 5)
      as [[Hm _] | (k & c & msg & _ & ->)]; [lia |]; cbn [trace finish].
    intros ->; exists msg; apply last_two.
Qed.

(** X16: one click sends at most five requests and waits at most 15 time
    units between them, whatever the topic and the responses. *)
Theorem one_click_bounds (topic : string) (clicked : bool) :
  (attempts_made (client_events (calls (block topic clicked))) <= 5)%nat /\
  total (sleeps (client_events (calls (block topic clicked)))) <= 15.
Proof.
  rewrite client_events_block.
  destruct (clicked && negb (blank topic)); [| cbn; lia].
  subst fetch; cbv beta.
  destruct (fetch_shape (query topic) system_prompt_text net 5)
    as [[Hm _] | (k & c & msg & (Hk & _) & ->)]; [lia |]; cbn [trace].
  rewrite sleeps_app, attempts_made_app, sleeps_backoff, attempts_made_backoff.
  rewrite sleeps_last_pass, attempts_made_last_pass, app_nil_r.
  unfold range; rewrite total_powers, Z2Nat.id by lia.
  split; [lia |].
  assert (2 ^ k <= 2 ^ 4) by (apply Z.pow_le_mono_r; lia).
  change (2 ^ 4) with 16 in *; lia.
Qed.

(** X17: the citation list is shown one line per citation, in order and
    numbered from 1: a further citation adds its line, with the next number,
    after the lines of the citations before it. *)
Theorem source_markdown_snoc (sources : list source) (s : source) :
  source_markdown str (sources ++ [s]) =
    (source_markdown str sources ++
     str_int (Z.of_nat (List.length sources) + 1) ++ ". [" ++ str (title s) ++ "](" ++
     str (uri s) ++ ")" ++ LF)%string.
Proof.
  unfold source_markdown; rewrite enumerate_snoc, fold_left_app; reflexivity.
Qed.

(** X18: when every attempt ends with a status, a body or an instance of
    [Exception], the block raises nothing, and a click with a topic that is
    not blank shows an analysis box. *)
Theorem page_raises_nothing (topic : string) (clicked : bool) :
  (forall i, 0 <= i < 5 -> within_Exception (net i)) ->
  raised (block topic clicked) = None /\
  (clicked = true -> blank topic = false ->
   exists analysis, In (StInfo analysis) (calls (block topic clicked))).
Proof.
  intros Hw.
  destruct (for_attempts_returns (query topic) system_prompt_text net 5 (range 5))
    as (x & [analysis sources] & Hr).
  { apply Forall_forall; intros i Hi; apply Hw; now apply in_range. }
  fold (fetch_gemini_response (query topic) system_prompt_text net 5) in Hr.
  subst block; unfold analysis_block; split.
  - destruct clicked; [| reflexivity].
    destruct (negb (truthy (JStr (strip topic)))); [reflexivity |].
    fold (query topic); now rewrite Hr.
  - intros -> Hb; rewrite strip_truthy, Hb; cbn [negb].
    fold (query topic); rewrite Hr; cbn [calls].
    exists analysis; right; apply in_or_app; right.
    apply in_or_app; left; unfold show; right; now left.
Qed.

End PageProperties.

(** ** The further properties at concrete responses *)

Lemma total_wait_bounded_witness :
  total (sleeps (trace (fetch_gemini_response "q" "s" always_429 5))) <= 2 ^ (5 - 1) - 1.
Proof.
  apply (total_wait_bounded "q" "s" always_429 5); lia.
Defined.

Lemma further_attempt_only_after_retryable_witness :
  raises_retryable (always_429 3) /\ 3 < 5 - 1.
Proof.
  apply (further_attempt_only_after_retryable "q" "s" always_429 5 3).
  - lia.
  - vm_compute; reflexivity.
Defined.


Lemma fault_is_not_retried_witness :
  finish (fetch_gemini_response "q" "s" always_times_out 5)
    = Return ReturnUnexpected error_sentinel /\
  attempts_made (trace (fetch_gemini_response "q" "s" always_times_out 5)) = 1%nat.
Proof.
  assert (Hk : retried always_times_out 5 0) by (split; [lia | intros i Hi; lia]).
  destruct (fault_is_not_retried "q" "s" always_times_out 5 0
              "URLError" "<urlopen error timed out>" Hk (or_introl eq_refl))
    as (Hf & Ha & _).
  split; [exact Hf | exact Ha].
Defined.

Lemma status_not_retried_ends_call_witness :
  finish (fetch_gemini_response "q" "s" (always 204 example_body) 5)
    = Return ReturnHTTPError error_sentinel /\
  attempts_made (trace (fetch_gemini_response "q" "s" (always 204 example_body) 5)) = 1%nat.
Proof.
  assert (Hk : retried (always 204 example_body) 5 0)
    by (split; [lia | intros i Hi; lia]).
  assert (Hs : 204 <> 200) by lia.
  destruct (status_not_retried_ends_call "q" "s" (always 204 example_body) 5 0 204
              Hk eq_refl Hs (or_introl eq_refl))
    as (Hf & Ha & _).
  split; [exact Hf | exact Ha].
Defined.

Lemma non_object_body_is_an_error_witness :
  finish (fetch_gemini_response "q" "s" (always 200 (JList [])) 5)
    = Return ReturnUnexpected error_sentinel /\
  last (trace (fetch_gemini_response "q" "s" (always 200 (JList [])) 5)) (Sleep 0)
    = StError "An unexpected error occurred: 'list' object has no attribute 'get'".
Proof.
  apply (non_object_body_is_an_error "q" "s" (always 200 (JList [])) 5 0 (JList [])).
  - split; [lia | intros i Hi; lia].
  - reflexivity.
  - intros fields; discriminate.
Defined.

Lemma citations_always_truthy_witness :
  Forall (fun s => truthy (title s) = true /\ truthy (uri s) = true)
         [{| title := JStr "A"; uri := JStr "u1" |}].
Proof.
  apply (citations_always_truthy "q" "s" (always 200 example_body) 5 0
           example_body (JStr "Markets rose.")).
  - split; [lia | intros i Hi; lia].
  - reflexivity.
  - reflexivity.
Defined.

Lemma unreadable_attribution_fails_call_witness :
  finish (fetch_gemini_response "q" "s" (always 200 body_with_unreadable_attribution) 5)
    = Return ReturnUnexpected error_sentinel.
Proof.
  eapply (unreadable_attribution_fails_call "q" "s"
            (always 200 body_with_unreadable_attribution) 5 0
            body_with_unreadable_attribution).
  - split; [lia | intros i Hi; lia].
  - reflexivity.
  - reflexivity.
  - reflexivity.
  - reflexivity.
  - reflexivity.
Defined.

Lemma placeholder_when_text_missing_witness :
  finish (fetch_gemini_response "q" "s" (always 200 body_without_text) 5)
    = Return ReturnExtracted (placeholder, []).
Proof.
  eapply (placeholder_when_text_missing "q" "s" (always 200 body_without_text) 5 0).
  - split; [lia | intros i Hi; lia].
  - reflexivity.
  - reflexivity.
  - reflexivity.
  - reflexivity.
  - reflexivity.
  - reflexivity.
Defined.

Lemma blank_topic_sends_nothing_witness :
  analysis_block str_text (always 200 example_body) "   " true =
    {| calls := [StWarning "Please enter a topic to analyze."]; raised := None |}.
Proof.
  apply (blank_topic_sends_nothing str_text (always 200 example_body) "   ").
  reflexivity.
Defined.

Lemma query_carries_topic_as_typed_witness :
  exists first rest,
    client_events (calls (analysis_block str_text (always 200 example_body) " tesla " true))
      = first :: rest /\
    first = Urlopen (req "Find the latest news and key findings for:  tesla "
                         system_prompt_text) 10.
Proof.
  apply (query_carries_topic_as_typed str_text (always 200 example_body) " tesla ").
  reflexivity.
Defined.

Lemma failure_is_shown_as_analysis_witness :
  raised (analysis_block str_text (always 404 JNull) "tesla" true) = None /\
  exists msg,
    last (trace (fetch_gemini_response "Find the latest news and key findings for: tesla"
                   system_prompt_text (always 404 JNull) 5)) (Sleep 0)
      = StError msg.
Proof.
  apply (failure_is_shown_as_analysis str_text (always 404 JNull) "tesla").
  - reflexivity.
  - reflexivity.
Defined.

Lemma page_raises_nothing_witness :
  raised (analysis_block str_text always_times_out "tesla" true) = None.
Proof.
  apply (page_raises_nothing str_text always_times_out "tesla" true).
  intros i _; exact I.
Defined.
